(** * Lightpack sound visualiser: [SoundManagerBase.cpp]

    A shallow embedding of the spectrum-to-colour pipeline of
    [Software/src/SoundManagerBase.cpp] and the properties of it that the
    specification states.

    Conventions.
    - C++ [int] and [size_t] values are integers of [Z]; every quantity the
      pipeline computes stays far inside the machine ranges (peaks and
      values in [0, 1000], products below [10^6], bin indices bounded by the
      channel count plus the FFT size), so no wrap-around is written out.
      The frame counter [m_frames] is a [Z] as well.
    - C++ [float] and [double] values are [spec_float]s of the standard
      library, operated on with the IEEE 754 binary32 and binary64
      operations of [SpecFloat].
    - What the C++ standard leaves undefined or to the C library is a
      parameter of the development ([Platform]): the result of [pow(2, x)], and the
      result of converting a floating-point value to an integer type that
      cannot hold it.
    - A read outside [m_fft] or [m_peaks] and an integer division by zero
      make the embedded function return [None]. *)

From Stdlib Require Import ZArith Lia Bool.
From Stdlib Require Import Floats.SpecFloat.
From stdpp Require Import base option list.

Open Scope Z_scope.

(** ** Floating-point arithmetic *)

(** C++ [float]: IEEE 754 binary32. *)
Module F32.
Definition prec : Z := 24.
Definition emax : Z := 128.
Definition of_Z (z : Z) : spec_float := binary_normalize prec emax z 0 false.
Definition mul := SFmul prec emax.
Definition sub := SFsub prec emax.
Definition sqrt := SFsqrt prec emax.
Definition ltb := SFltb.
End F32.

(** C++ [double]: IEEE 754 binary64. *)
Module F64.
Definition prec : Z := 53.
Definition emax : Z := 1024.
Definition of_Z (z : Z) : spec_float := binary_normalize prec emax z 0 false.
Definition add := SFadd prec emax.
Definition mul := SFmul prec emax.
Definition div := SFdiv prec emax.
End F64.

(** Truncation toward zero, the value a floating-integral conversion
    yields when the destination type can represent it. *)
Definition SFtrunc (x : spec_float) : option Z :=
  match x with
  | S754_zero _ => Some 0
  | S754_finite s m e => Some (cond_Zopp s (Z.shiftl (Zpos m) e))
  | S754_infinity _ | S754_nan => None
  end.

(** A key whose lexicographic order is the order of [SFcompare] on the
    values that are not NaN. *)
Definition SFkey (x : spec_float) : Z * Z * Z :=
  match x with
  | S754_nan => (0, 0, 0)
  | S754_zero _ => (0, 0, 0)
  | S754_infinity s => (if s then -2 else 2, 0, 0)
  | S754_finite s m e => if s then (-1, - e, - Zpos m) else (1, e, Zpos m)
  end.

Definition key_lt (a b : Z * Z * Z) : Prop :=
  a.1.1 < b.1.1 \/ (a.1.1 = b.1.1 /\ (a.1.2 < b.1.2 \/ (a.1.2 = b.1.2 /\ a.2 < b.2))).

Definition is_nan (x : spec_float) : bool :=
  match x with S754_nan => true | _ => false end.

Definition INT_MIN : Z := - 2 ^ 31.
Definition INT_MAX : Z := 2 ^ 31 - 1.
Definition SIZE_MAX : Z := 2 ^ 64 - 1.

(** ** The platform

    [pow2] is the C library's [pow(2, x)] on doubles. [ub_size_t] and
    [ub_int] are what the platform yields for a conversion to [size_t],
    respectively to [int], of a value the type cannot represent (undefined
    behaviour in C++). *)
Class Platform : Type := mkPlatform {
  pow2 : spec_float -> spec_float;
  ub_size_t : spec_float -> Z;
  ub_int : spec_float -> Z
}.

(** A model of [pow(2, x)]: the exponent is split into its integer and
    fractional parts, [2^frac] is computed in fixed point with [exp2_bits]
    fractional bits by repeated square roots, and the product is rounded to
    binary64. *)
Module Exp2.
Definition exp2_bits : Z := 128.
Definition one : Z := 2 ^ exp2_bits.

(** [bits] are the fractional bits of the exponent, most significant
    first; [r] is [2^(2^-k)] in fixed point for the bit before the head. *)
Fixpoint frac_pow (bits : list bool) (r acc : Z) : Z :=
  match bits with
  | [] => acc
  | b :: bits' =>
      let r' := Z.sqrt (r * one) in
      frac_pow bits' r' (if b then acc * r' / one else acc)
  end.

(** The [n] bits of [f] below position [k], most significant first. *)
Fixpoint bits_below (f : Z) (k : Z) (n : nat) : list bool :=
  match n with
  | O => []
  | S n' => Z.testbit f (k - 1) :: bits_below f (k - 1) n'
  end.

Definition exp2 (x : spec_float) : spec_float :=
  match x with
  | S754_nan => S754_nan
  | S754_infinity false => S754_infinity false
  | S754_infinity true => S754_zero false
  | S754_zero _ => F64.of_Z 1
  | S754_finite s m e =>
      let v := cond_Zopp s (Zpos m) in
      let n := Z.shiftl v e in
      let f := v - Z.shiftl n (- e) in
      if n >? 1100 then S754_infinity false
      else if n <? -1200 then S754_zero false
      else
        let k := Z.max 0 (- e) in
        let acc := frac_pow (bits_below f k (Z.to_nat (Z.min k 120))) (2 * one) one in
        binary_normalize F64.prec F64.emax acc (n - exp2_bits) false
  end.
End Exp2.

(** x86-64: [cvttsd2si] and [cvttss2si] deliver the "integer indefinite"
    value, the sign bit alone, for a NaN or an infinite operand, and the
    instruction sequences compilers emit for a conversion to an unsigned
    64-bit integer keep that bit. The same value stands for the other
    unrepresentable operands ([pow] produces none). *)
Definition x86_64 : Platform :=
  {| pow2 := Exp2.exp2; ub_size_t := fun _ => 2 ^ 63; ub_int := fun _ => INT_MIN |}.

(** AArch64: [fcvtzu] and [fcvtzs] saturate, and convert a NaN to 0. *)
Definition saturate (lo hi : Z) (x : spec_float) : Z :=
  match x with
  | S754_nan => 0
  | S754_infinity s => if s then lo else hi
  | _ => match SFtrunc x with
         | Some z => Z.max lo (Z.min z hi)
         | None => 0
         end
  end.

Definition aarch64 : Platform :=
  {| pow2 := Exp2.exp2;
     ub_size_t := saturate 0 SIZE_MAX;
     ub_int := saturate INT_MIN INT_MAX |}.

(** ** Qt value types *)

(** [QRgb] is an unsigned 32-bit [0xAARRGGBB] word. *)
Abbreviation QRgb := Z.

(** [QColor], seen through [red()], [green()] and [blue()]. *)
Record QColor : Type := mkQColor { red : Z; green : Z; blue : Z }.

(** [qRgb(r, g, b)]: opaque alpha. *)
Definition qRgb (r g b : Z) : QRgb :=
  Z.lor (Z.shiftl 255 24)
    (Z.lor (Z.shiftl (Z.land r 255) 16)
       (Z.lor (Z.shiftl (Z.land g 255) 8) (Z.land b 255))).

(** [QColor::setRed] and its siblings bring an out-of-range component
    back into [0, 255]. *)
Definition qcolor_component (v : Z) : Z := Z.max 0 (Z.min v 255).

(** [QColor::rgb()]. *)
Definition rgb (c : QColor) : QRgb := qRgb (red c) (green c) (blue c).

Record SoundManagerDeviceInfo : Type :=
  mkDeviceInfo { dev_name : list Z; dev_id : Z }.

(** Modelled from the spec: [LiquidColorGenerator] is defined outside
    [SoundManagerBase.cpp]. It owns its progression state, exposes the
    current colour as a pure read, and is started, stopped, reset and given
    a speed. *)
Record LiquidColorGenerator : Type := mkGenerator {
  gen_running : bool;
  gen_speed : Z;
  gen_color : QColor
}.

Module Generator.
Definition start (g : LiquidColorGenerator) : LiquidColorGenerator :=
  mkGenerator true (gen_speed g) (gen_color g).
Definition stop (g : LiquidColorGenerator) : LiquidColorGenerator :=
  mkGenerator false (gen_speed g) (gen_color g).
Definition reset (g : LiquidColorGenerator) : LiquidColorGenerator :=
  mkGenerator (gen_running g) (gen_speed g) (mkQColor 0 0 0).
Definition setSpeed (v : Z) (g : LiquidColorGenerator) : LiquidColorGenerator :=
  mkGenerator (gen_running g) v (gen_color g).
Definition current (g : LiquidColorGenerator) : QColor := gen_color g.
(** The generator's own progression: while it runs its timer moves the
    current colour; the curve is the generator's business, so the colour
    it moves to is a parameter. A stopped generator stays as it is. *)
Definition advance (color : QColor) (g : LiquidColorGenerator) : LiquidColorGenerator :=
  if gen_running g then mkGenerator true (gen_speed g) color else g.
End Generator.

(** ** The engine state *)

Record SoundManagerBase : Type := mkSoundManager {
  m_isInited : bool;
  m_isEnabled : bool;
  m_device : Z;
  m_minColor : QColor;
  m_maxColor : QColor;
  m_isLiquidMode : bool;
  m_isSendDataOnlyIfColorsChanged : bool;
  m_generator : LiquidColorGenerator;
  m_colors : list QRgb;
  m_peaks : list Z;
  m_frames : Z;
  m_fft : list spec_float
}.

Definition with_isEnabled (b : bool) (s : SoundManagerBase) : SoundManagerBase :=
  mkSoundManager (m_isInited s) b (m_device s) (m_minColor s) (m_maxColor s)
    (m_isLiquidMode s) (m_isSendDataOnlyIfColorsChanged s) (m_generator s)
    (m_colors s) (m_peaks s) (m_frames s) (m_fft s).

Definition with_isLiquidMode (b : bool) (s : SoundManagerBase) : SoundManagerBase :=
  mkSoundManager (m_isInited s) (m_isEnabled s) (m_device s) (m_minColor s) (m_maxColor s)
    b (m_isSendDataOnlyIfColorsChanged s) (m_generator s)
    (m_colors s) (m_peaks s) (m_frames s) (m_fft s).

Definition with_gating (b : bool) (s : SoundManagerBase) : SoundManagerBase :=
  mkSoundManager (m_isInited s) (m_isEnabled s) (m_device s) (m_minColor s) (m_maxColor s)
    (m_isLiquidMode s) b (m_generator s)
    (m_colors s) (m_peaks s) (m_frames s) (m_fft s).

Definition with_generator (g : LiquidColorGenerator) (s : SoundManagerBase) : SoundManagerBase :=
  mkSoundManager (m_isInited s) (m_isEnabled s) (m_device s) (m_minColor s) (m_maxColor s)
    (m_isLiquidMode s) (m_isSendDataOnlyIfColorsChanged s) g
    (m_colors s) (m_peaks s) (m_frames s) (m_fft s).

Definition with_colors (cs : list QRgb) (s : SoundManagerBase) : SoundManagerBase :=
  mkSoundManager (m_isInited s) (m_isEnabled s) (m_device s) (m_minColor s) (m_maxColor s)
    (m_isLiquidMode s) (m_isSendDataOnlyIfColorsChanged s) (m_generator s)
    cs (m_peaks s) (m_frames s) (m_fft s).

Definition with_peaks (ps : list Z) (s : SoundManagerBase) : SoundManagerBase :=
  mkSoundManager (m_isInited s) (m_isEnabled s) (m_device s) (m_minColor s) (m_maxColor s)
    (m_isLiquidMode s) (m_isSendDataOnlyIfColorsChanged s) (m_generator s)
    (m_colors s) ps (m_frames s) (m_fft s).

Definition with_frames (n : Z) (s : SoundManagerBase) : SoundManagerBase :=
  mkSoundManager (m_isInited s) (m_isEnabled s) (m_device s) (m_minColor s) (m_maxColor s)
    (m_isLiquidMode s) (m_isSendDataOnlyIfColorsChanged s) (m_generator s)
    (m_colors s) (m_peaks s) n (m_fft s).

Definition with_fft (f : list spec_float) (s : SoundManagerBase) : SoundManagerBase :=
  mkSoundManager (m_isInited s) (m_isEnabled s) (m_device s) (m_minColor s) (m_maxColor s)
    (m_isLiquidMode s) (m_isSendDataOnlyIfColorsChanged s) (m_generator s)
    (m_colors s) (m_peaks s) (m_frames s) f.

(** The pure virtual [init()] and [populateDeviceList(devices, recommended)],
    which the capture backend of each operating system implements. *)
Class Backend : Type := mkBackend {
  init : SoundManagerBase -> bool * SoundManagerBase;
  populateDeviceList :
    SoundManagerBase -> list SoundManagerDeviceInfo -> Z -> list SoundManagerDeviceInfo * Z
}.

(** The Qt signals the class emits. *)
Inductive Signal : Type :=
  | updateLedsColors (colors : list QRgb)
  | deviceList (devices : list SoundManagerDeviceInfo) (recommended : Z).

(** [fftSize()]. *)
Definition fftSize : Z := 1024.

Definition specHeight : Z := 1000.

(** ** The pipeline *)

Section Pipeline.

Context {platform : Platform}.

(** The conversions to [int] and to [size_t]: truncation toward zero
    when the truncated value fits the type, the platform's answer
    otherwise. *)
Definition to_int (x : spec_float) : Z :=
  match SFtrunc x with
  | Some z => if (INT_MIN <=? z) && (z <=? INT_MAX) then z else ub_int x
  | None => ub_int x
  end.

Definition to_size_t (x : spec_float) : Z :=
  match SFtrunc x with
  | Some z => if (0 <=? z) && (z <=? SIZE_MAX) then z else ub_size_t x
  | None => ub_size_t x
  end.

(** The exponent [i*9.0 / (m_colors.size() - 1)] of line 193. *)
Definition bucket_exponent (size i : Z) : spec_float :=
  F64.div (F64.mul (F64.of_Z i) (F64.of_Z 9)) (F64.of_Z (size - 1)).

(** [b1] as line 193 computes it and line 194 caps it, before the
    adjustment of line 195. *)
Definition bucket_cap (size i : Z) : Z :=
  let b1 := to_size_t (pow2 (bucket_exponent size i)) in
  if b1 >? fftSize - 1 then fftSize - 1 else b1.

(** Lines 193 to 195: the exclusive upper boundary of channel [i]. *)
Definition bucket_end (size i b0 : Z) : Z :=
  let b1 := bucket_cap size i in
  if b1 <=? b0 then b0 + 1 else b1.

(** Lines 196 and 197, [n] iterations starting at [b0]. *)
Fixpoint bucket_scan (fft : list spec_float) (b0 : Z) (n : nat)
    (peak : spec_float) : option spec_float :=
  match n with
  | O => Some peak
  | S n' =>
      x ← fft !! Z.to_nat (1 + b0);
      bucket_scan fft (b0 + 1) n' (if F32.ltb peak x then x else peak)
  end.

(** [for (; b0<b1; b0++) ...] with [peak] starting at 0. *)
Definition bucket_peak (fft : list spec_float) (b0 b1 : Z) : option spec_float :=
  bucket_scan fft b0 (Z.to_nat (b1 - b0)) (S754_zero false).

(** Lines 198 to 200. [peak] is a [float], so [sqrt] is the [float]
    overload of [<cmath>] and the whole expression is evaluated in binary32
    before it is converted to [int]. *)
Definition scale_val (peak : spec_float) : Z :=
  let val :=
    to_int (F32.sub (F32.mul (F32.sqrt peak) (F32.of_Z specHeight)) (F32.of_Z 4)) in
  let val := if val >? specHeight then specHeight else val in
  if val <? 0 then 0 else val.

(** Lines 202 to 204: the new value of [m_peaks[i]]. *)
Definition decay_peak (frames val p : Z) : Z :=
  let p := if Z.rem frames 5 =? 0 then p - 1 else p in
  let p := if p <? 0 then 0 else p in
  if val >? p then val else p.

(** Lines 205 and 206, with [p] the value of [m_peaks[i]] after line 204. *)
Definition renormalize (val p : Z) : option Z :=
  if val <? p - 5 then
    if p =? 0 then None else Some (Z.quot (val * specHeight) p)
  else Some val.

(** Lines 212 to 214, one component. *)
Definition blend (from to val : Z) : Z :=
  qcolor_component
    (to_int (F64.add (F64.of_Z from)
               (F64.mul (F64.of_Z (to - from))
                  (F64.div (F64.of_Z val) (F64.of_Z specHeight))))).

(** Lines 209 to 214 and the [rgb.rgb()] of lines 215 and 217. *)
Definition channel_rgb (s : SoundManagerBase) (val : Z) : QRgb :=
  let from := if m_isLiquidMode s then mkQColor 0 0 0 else m_minColor s in
  let to := if m_isLiquidMode s then Generator.current (m_generator s) else m_maxColor s in
  qRgb (blend (red from) (red to) val)
       (blend (green from) (green to) val)
       (blend (blue from) (blue to) val).

(** The loop variables that outlive one iteration. *)
Record Loop : Type := mkLoop { loop_b0 : Z; loop_changed : bool; loop_state : SoundManagerBase }.

(** One iteration of the loop of [applyFft] (lines 191 to 220).
    [isLedEnabled] is [Settings::isLedEnabled]. *)
Definition applyFft_body (isLedEnabled : nat -> bool) (i : nat) (l : Loop) : option Loop :=
  let s := loop_state l in
  let b0 := loop_b0 l in
  let b1 := bucket_end (Z.of_nat (length (m_colors s))) (Z.of_nat i) b0 in
  peak ← bucket_peak (m_fft s) b0 b1;
  let val := scale_val peak in
  p ← m_peaks s !! i;
  let p := decay_peak (m_frames s) val p in
  val ← renormalize val p;
  let s := with_peaks (<[i:=p]> (m_peaks s)) s in
  if isLedEnabled i then
    c ← m_colors s !! i;
    let new := channel_rgb s val in
    Some (mkLoop b1 (if c =? new then loop_changed l else true)
            (with_colors (<[i:=new]> (m_colors s)) s))
  else
    Some (mkLoop b1 (loop_changed l) (with_colors (<[i:=0]> (m_colors s)) s)).

(** [n] iterations from index [i]. *)
Fixpoint applyFft_loop (isLedEnabled : nat -> bool) (n i : nat) (l : Loop) : option Loop :=
  match n with
  | O => Some l
  | S n' => l' ← applyFft_body isLedEnabled i l; applyFft_loop isLedEnabled n' (S i) l'
  end.

(** [SoundManagerBase::applyFft]: the loop runs [m_colors.size()] times. *)
Definition applyFft (isLedEnabled : nat -> bool) (s : SoundManagerBase)
    : option (bool * SoundManagerBase) :=
  l ← applyFft_loop isLedEnabled (length (m_colors s)) 0 (mkLoop 0 false s);
  Some (loop_changed l, loop_state l).

(** [SoundManagerBase::updateColors]. [updateFft()] is pure virtual: the
    spectrum it leaves in [m_fft] is the input [spectrum]. *)
Definition updateColors (spectrum : list spec_float) (isLedEnabled : nat -> bool)
    (s : SoundManagerBase) : option (SoundManagerBase * list Signal) :=
  let s := with_frames (m_frames s + 1) s in
  let s := with_fft spectrum s in
  '(colorsChanged, s) ← applyFft isLedEnabled s;
  Some (s, if colorsChanged || negb (m_isSendDataOnlyIfColorsChanged s)
           then [updateLedsColors (m_colors s)] else []).

(** [SoundManagerBase::initColors]. *)
Definition initColors (numberOfLeds : Z) (s : SoundManagerBase) : SoundManagerBase :=
  with_peaks (replicate (Z.to_nat numberOfLeds) 0)
    (with_colors (replicate (Z.to_nat numberOfLeds) 0) s).

(** [SoundManagerBase::setNumberOfLeds]. *)
Definition setNumberOfLeds (numberOfLeds : Z) (s : SoundManagerBase) : SoundManagerBase :=
  initColors numberOfLeds s.

(** [SoundManagerBase::reset]. *)
Definition reset (s : SoundManagerBase) : SoundManagerBase :=
  let s := initColors (Z.of_nat (length (m_colors s))) s in
  with_generator (Generator.reset (m_generator s)) s.

(** [SoundManagerBase::setSendDataOnlyIfColorsChanged]. *)
Definition setSendDataOnlyIfColorsChanged (state : bool) (s : SoundManagerBase)
    : SoundManagerBase :=
  with_gating state s.

(** [SoundManagerBase::setLiquidMode]. *)
Definition setLiquidMode (spectrum : list spec_float) (isLedEnabled : nat -> bool)
    (state : bool) (s : SoundManagerBase) : option (SoundManagerBase * list Signal) :=
  let s := with_isLiquidMode state s in
  if m_isLiquidMode s && m_isEnabled s then
    Some (with_generator (Generator.start (m_generator s)) s, [])
  else
    let s := with_generator (Generator.stop (m_generator s)) s in
    if m_isEnabled s then updateColors spectrum isLedEnabled s
    else Some (s, []).

(** *** The loop, channel by channel

    The value of [b0] when the loop of [applyFft] enters iteration [k]:
    0 at first, then the [b1] of the iteration before. *)
Fixpoint bucket_start (size : Z) (k : nat) : Z :=
  match k with
  | O => 0
  | S k' => bucket_end size (Z.of_nat k') (bucket_start size k')
  end.

(** The half-open ranges [b0, b1) of the first [n] iterations; iteration
    [k] reads [m_fft[1 + b]] for the [b] of its range. *)
Definition bucket_ranges (size : Z) (n : nat) : list (Z * Z) :=
  map (fun k => (bucket_start size k, bucket_start size (S k))) (seq 0 n).

(** [b] lies in the range of iteration [k]. *)
Definition in_bucket (size : Z) (k : nat) (b : Z) : Prop :=
  bucket_start size k <= b < bucket_start size (S k).

(** The local [peak] of iteration [i] after line 197. *)
Definition channel_raw (s : SoundManagerBase) (i : nat) : option spec_float :=
  let size := Z.of_nat (length (m_colors s)) in
  bucket_peak (m_fft s) (bucket_start size i) (bucket_start size (S i)).

(** What iteration [i] of the loop stores in [m_peaks[i]] and [m_colors[i]],
    and whether it sets [changed], as a function of the state [s] in which
    [applyFft] is called. *)
Definition channel_result (isLedEnabled : nat -> bool) (s : SoundManagerBase) (i : nat)
    : option (Z * QRgb * bool) :=
  peak ← channel_raw s i;
  let val := scale_val peak in
  p ← m_peaks s !! i;
  let p := decay_peak (m_frames s) val p in
  val ← renormalize val p;
  c ← m_colors s !! i;
  if isLedEnabled i then
    let new := channel_rgb s val in
    Some (p, new, negb (c =? new))
  else Some (p, 0, false).

(** The loop variables after iteration [i], given those before it and the
    result of the iteration. *)
Definition loop_next (size : Z) (i : nat) (l : Loop) (r : Z * QRgb * bool) : Loop :=
  let s := loop_state l in
  mkLoop (bucket_start size (S i)) (loop_changed l || r.2)
    (with_colors (<[i:=r.1.2]> (m_colors s)) (with_peaks (<[i:=r.1.1]> (m_peaks s)) s)).

(** The state of the loop when it enters iteration [k], [s0] being the
    state in which [applyFft] was called: the iterations before [k] have
    stored their results, nothing else has changed. *)
Record loop_inv (isLedEnabled : nat -> bool) (s0 : SoundManagerBase) (k : nat) (l : Loop)
    : Prop := mkLoopInv {
  inv_b0 : loop_b0 l = bucket_start (Z.of_nat (length (m_colors s0))) k;
  inv_frame :
    loop_state l =
    with_colors (m_colors (loop_state l)) (with_peaks (m_peaks (loop_state l)) s0);
  inv_colors_length : length (m_colors (loop_state l)) = length (m_colors s0);
  inv_peaks_length : length (m_peaks (loop_state l)) = length (m_peaks s0);
  inv_rest : forall j : nat, (k <= j)%nat ->
    m_colors (loop_state l) !! j = m_colors s0 !! j /\
    m_peaks (loop_state l) !! j = m_peaks s0 !! j;
  inv_done : forall j : nat, (j < k)%nat ->
    exists r, channel_result isLedEnabled s0 j = Some r /\
      m_peaks (loop_state l) !! j = Some r.1.1 /\
      m_colors (loop_state l) !! j = Some r.1.2;
  inv_changed :
    loop_changed l = true <->
    exists (j : nat) r, (j < k)%nat /\ channel_result isLedEnabled s0 j = Some r /\ r.2 = true
}.

Context {backend : Backend}.

(** [SoundManagerBase::requestDeviceList]. *)
Definition requestDeviceList (s : SoundManagerBase) : SoundManagerBase * list Signal :=
  let '(ok, s) := if m_isInited s then (true, s) else init s in
  if ok then
    let '(devices, recommended) := populateDeviceList s [] (-1) in
    (s, [deviceList devices recommended])
  else (with_isEnabled false s, []).

End Pipeline.

(** ** Invariants and sample data *)

(** The invariant of [PeakState]: every stored peak lies in [0, specHeight]. *)
Definition peaks_ok (s : SoundManagerBase) : Prop :=
  Forall (fun p => 0 <= p <= specHeight) (m_peaks s).

(** [m_colors] and [m_peaks] have one entry per channel. *)
Definition sizes_agree (s : SoundManagerBase) : Prop :=
  length (m_peaks s) = length (m_colors s).

Definition black : QColor := mkQColor 0 0 0.
Definition white : QColor := mkQColor 255 255 255.
Definition stopped_generator : LiquidColorGenerator := mkGenerator false 0 black.

(** A spectrum whose bins all hold [m * 2^e]. *)
Definition flat (m e : Z) : list spec_float :=
  replicate (Z.to_nat fftSize) (binary_normalize F32.prec F32.emax m e false).

Definition silence : list spec_float := flat 0 0.
Definition loud : list spec_float := flat 11 (-10).
Definition quiet : list spec_float := flat 3 (-10).

Definition all_leds : nat -> bool := fun _ => true.

(** An initialised, enabled engine with [n] channels and a gradient from
    black to white, as [initFromSettings] and the constructor leave it. *)
Definition running (n : Z) (liquid gating : bool) : SoundManagerBase :=
  initColors n
    (mkSoundManager true true 0 black white liquid gating stopped_generator [] [] 0 silence).

(** A backend whose [init()] fails, and one that finds two devices. *)
Definition failing_backend : Backend :=
  {| init := fun s => (false, s);
     populateDeviceList := fun _ devices recommended => (devices, recommended) |}.

Definition two_devices : list SoundManagerDeviceInfo :=
  [mkDeviceInfo [108; 105; 110; 101] 0; mkDeviceInfo [109; 105; 99] 1].

Definition working_backend : Backend :=
  {| init := fun s =>
       (true,
        mkSoundManager true (m_isEnabled s) (m_device s) (m_minColor s) (m_maxColor s)
          (m_isLiquidMode s) (m_isSendDataOnlyIfColorsChanged s) (m_generator s)
          (m_colors s) (m_peaks s) (m_frames s) (m_fft s));
     populateDeviceList := fun _ devices _ => (devices ++ two_devices, 1) |}.

(** [updateColors] once per spectrum of [spectra], on x86-64 with every
    LED enabled; the signals of each call. *)
Fixpoint ticks (spectra : list (list spec_float)) (s : SoundManagerBase)
    : option (SoundManagerBase * list (list Signal)) :=
  match spectra with
  | [] => Some (s, [])
  | spectrum :: rest =>
      '(s1, signals) ← updateColors (platform := x86_64) spectrum all_leds s;
      '(s2, later) ← ticks rest s1;
      Some (s2, signals :: later)
  end.

(** The state [ticks] ends in, [s] itself if a call failed. *)
Definition after_ticks (spectra : list (list spec_float)) (s : SoundManagerBase)
    : SoundManagerBase :=
  match ticks spectra s with
  | Some (s', _) => s'
  | None => s
  end.

(** The result of [applyFft], respectively [updateColors], on x86-64; the
    state itself and no signal if the call failed. *)
Definition applied (isLedEnabled : nat -> bool) (s : SoundManagerBase)
    : bool * SoundManagerBase :=
  match applyFft (platform := x86_64) isLedEnabled s with
  | Some r => r
  | None => (false, s)
  end.

Definition updated (spectrum : list spec_float) (isLedEnabled : nat -> bool)
    (s : SoundManagerBase) : SoundManagerBase * list Signal :=
  match updateColors (platform := x86_64) spectrum isLedEnabled s with
  | Some r => r
  | None => (s, [])
  end.

(** A two-channel engine in Liquid mode whose generator runs. *)
Definition liquid_engine : SoundManagerBase :=
  with_generator (mkGenerator true 10 (mkQColor 200 30 90)) (running 2 true true).

(** An engine whose backend has not been initialised yet. *)
Definition uninitialised : SoundManagerBase :=
  mkSoundManager false true 0 black white false true stopped_generator [0; 0] [0; 0] 0 silence.

(** Every LED enabled but the first. *)
Definition without_first : nat -> bool := fun i => negb (i =? 0)%nat.

(** Follows the spec's words: [floor(2^(i * 9 / (N-1)))], computed exactly
    on integers as the largest [m < 1024] with [m^(N-1) <= 2^(9*i)]. *)
Definition floor_pow2 (size i : Z) : Z :=
  let fits m := m ^ (size - 1) <=? 2 ^ (9 * i) in
  fold_left (fun m b => if fits (m + 2 ^ b) then m + 2 ^ b else m)
    [9; 8; 7; 6; 5; 4; 3; 2; 1; 0] 0.

(** The capped boundaries of all channels agree with the spec's formula,
    on x86-64. *)
Definition caps_agree (size : Z) : bool :=
  forallb
    (fun i => bucket_cap (platform := x86_64) size i =? Z.min (fftSize - 1) (floor_pow2 size i))
    (seqZ 0 size).

(** Two floating-point values are the same datum. *)
Definition same_float (x y : spec_float) : bool :=
  match x, y with
  | S754_zero s, S754_zero s' => Bool.eqb s s'
  | S754_infinity s, S754_infinity s' => Bool.eqb s s'
  | S754_nan, S754_nan => true
  | S754_finite s m e, S754_finite s' m' e' =>
      Bool.eqb s s' && (m =? m')%positive && (e =? e')
  | _, _ => false
  end.

(** The exponent of the last of [size] channels is [9.0]. *)
Definition last_exponent_ok (size : Z) : bool :=
  same_float (bucket_exponent size (size - 1)) (F64.of_Z 9).

(** The engine as the next call finds it when the generator's timer has
    moved the colour in between. *)
Definition advanced (color : QColor) (s : SoundManagerBase) : SoundManagerBase :=
  with_generator (Generator.advance color (m_generator s)) s.

(** The result of [setLiquidMode] on x86-64; the state itself and no signal
    if the call failed. *)
Definition switched (state : bool) (spectrum : list spec_float) (isLedEnabled : nat -> bool)
    (s : SoundManagerBase) : SoundManagerBase * list Signal :=
  match setLiquidMode (platform := x86_64) spectrum isLedEnabled state s with
  | Some r => r
  | None => (s, [])
  end.

(** ** The other slots of the class *)

Definition with_device (v : Z) (s : SoundManagerBase) : SoundManagerBase :=
  mkSoundManager (m_isInited s) (m_isEnabled s) v (m_minColor s) (m_maxColor s)
    (m_isLiquidMode s) (m_isSendDataOnlyIfColorsChanged s) (m_generator s)
    (m_colors s) (m_peaks s) (m_frames s) (m_fft s).

Definition with_minColor (c : QColor) (s : SoundManagerBase) : SoundManagerBase :=
  mkSoundManager (m_isInited s) (m_isEnabled s) (m_device s) c (m_maxColor s)
    (m_isLiquidMode s) (m_isSendDataOnlyIfColorsChanged s) (m_generator s)
    (m_colors s) (m_peaks s) (m_frames s) (m_fft s).

Definition with_maxColor (c : QColor) (s : SoundManagerBase) : SoundManagerBase :=
  mkSoundManager (m_isInited s) (m_isEnabled s) (m_device s) (m_minColor s) c
    (m_isLiquidMode s) (m_isSendDataOnlyIfColorsChanged s) (m_generator s)
    (m_colors s) (m_peaks s) (m_frames s) (m_fft s).

(** The condition of the [static_assert] in [fftSize()]:
    [size && !(size & (size - 1))]. *)
Definition power_of_two_check (size : Z) : bool :=
  negb (size =? 0) && (Z.land size (size - 1) =? 0).

(** [SoundManagerBase::setMinColor], [setMaxColor] and [setLiquidModeSpeed]. *)
Definition setMinColor (color : QColor) (s : SoundManagerBase) : SoundManagerBase :=
  with_minColor color s.

Definition setMaxColor (color : QColor) (s : SoundManagerBase) : SoundManagerBase :=
  with_maxColor color s.

Definition setLiquidModeSpeed (value : Z) (s : SoundManagerBase) : SoundManagerBase :=
  with_generator (Generator.setSpeed value (m_generator s)) s.

(** The pure virtual [start(bool)], which opens or closes the capture of
    the operating system. *)
Class Capture : Type := mkCapture {
  start : bool -> SoundManagerBase -> SoundManagerBase
}.

(** [SoundManagerBase::setDevice]. *)
Definition setDevice {capture : Capture} (value : Z) (s : SoundManagerBase)
    : SoundManagerBase :=
  let enabled := m_isEnabled s in
  let s := if enabled then start false s else s in
  let s := with_device value s in
  if enabled then start true s else s.

(** What the getters of [Settings] return when [initFromSettings] reads
    them; [getNumberOfLeds] stands for
    [Settings::getNumberOfLeds(Settings::getConnectedDevice())]. *)
Record Settings : Type := mkSettings {
  getSoundVisualizerDevice : Z;
  getSoundVisualizerMinColor : QColor;
  getSoundVisualizerMaxColor : QColor;
  isSoundVisualizerLiquidMode : bool;
  getSoundVisualizerLiquidSpeed : Z;
  isSendDataOnlyIfColorsChanges : bool;
  getNumberOfLeds : Z
}.

(** [SoundManagerBase::initFromSettings]. *)
Definition initFromSettings (settings : Settings) (s : SoundManagerBase) : SoundManagerBase :=
  let s := with_device (getSoundVisualizerDevice settings) s in
  let s := with_minColor (getSoundVisualizerMinColor settings) s in
  let s := with_maxColor (getSoundVisualizerMaxColor settings) s in
  let s := with_isLiquidMode (isSoundVisualizerLiquidMode settings) s in
  let s := with_generator
             (Generator.setSpeed (getSoundVisualizerLiquidSpeed settings) (m_generator s)) s in
  let s := with_gating (isSendDataOnlyIfColorsChanges settings) s in
  initColors (getNumberOfLeds settings) s.

(** [SoundManagerBase::settingsProfileChanged]. *)
Definition settingsProfileChanged (settings : Settings) (s : SoundManagerBase)
    : SoundManagerBase :=
  initFromSettings settings s.

(** ** More invariants and sample data *)

(** A colour whose components Qt reports in [0, 255]. *)
Definition valid_color (c : QColor) : Prop :=
  0 <= red c <= 255 /\ 0 <= green c <= 255 /\ 0 <= blue c <= 255.

(** A [QRgb] word with alpha 255: [0xFF000000] to [0xFFFFFFFF]. *)
Definition opaque (c : QRgb) : Prop := 4278190080 <= c <= 4294967295.

(** The decrement of line 202 on frame [frames]. *)
Definition decrement (frames : Z) : Z := if Z.rem frames 5 =? 0 then 1 else 0.

(** No bin that the [size] channels read holds a positive magnitude. *)
Definition silent {platform : Platform} (size : nat) (spectrum : list spec_float) : Prop :=
  forall b, 0 <= b < bucket_start (Z.of_nat size) size ->
    exists x, spectrum !! Z.to_nat (1 + b) = Some x /\ F32.ltb (S754_zero false) x = false.

(** [n] calls of [updateColors] on the same spectrum. *)
Fixpoint updates {platform : Platform} (n : nat) (spectrum : list spec_float)
    (isLedEnabled : nat -> bool) (s : SoundManagerBase) : option SoundManagerBase :=
  match n with
  | O => Some s
  | S n' =>
      '(s', _) ← updateColors spectrum isLedEnabled s;
      updates n' spectrum isLedEnabled s'
  end.

(** Both ends of the gradient for every pair of components. *)
Definition endpoints_ok {platform : Platform} (from : Z) : bool :=
  forallb (fun to => (blend from to 0 =? from) && (blend from to specHeight =? to))
    (seqZ 0 256).

(** A capture backend whose [start] records the request in [m_isEnabled],
    as the backends of the operating systems do. *)
Definition recording_capture : Capture :=
  {| start := fun isEnabled s => with_isEnabled isEnabled s |}.

Definition sample_settings : Settings :=
  mkSettings 1 black white true 7 true 3.

(** An engine after three loud frames and a quiet one: frame 4, peaks 99. *)
Definition warmed : SoundManagerBase :=
  after_ticks [loud; loud; loud; quiet] (running 2 false true).

(** The magnitude of every bin of [loud]. *)
Definition loud_bin : spec_float := binary_normalize F32.prec F32.emax 11 (-10) false.

(** The state [updates] ends in on x86-64 with every LED enabled, [s]
    itself if a call failed. *)
Definition after_updates (n : nat) (spectrum : list spec_float) (s : SoundManagerBase)
    : SoundManagerBase :=
  match updates (platform := x86_64) n spectrum all_leds s with
  | Some s' => s'
  | None => s
  end.

(** Closes one case of a comparison of two keys. *)
Local Ltac cmp_cases :=
  split; intros Hcmp; cbn in *;
  first [ discriminate Hcmp | reflexivity | lia ].

(** * Properties *)

(** ** The order of the floating-point comparison *)

Lemma SFltb_key (a b : spec_float) :
  is_nan a = false -> is_nan b = false ->
  (SFltb a b = true <-> key_lt (SFkey a) (SFkey b)).
Proof.
  intros Ha Hb. unfold SFltb, key_lt.
  destruct a as [sa|sa| |sa ma ea], b as [sb|sb| |sb mb eb]; try discriminate;
    cbn [SFcompare SFkey];
    try (destruct sa); try (destruct sb); try cmp_cases.
  - destruct (Z.compare_spec ea eb); [subst; rewrite Pos.compare_cont_spec; cbn [Pos.switch_Eq CompOpp];
      destruct (Pos.compare_spec ma mb) | |]; cmp_cases.
  - destruct (Z.compare_spec ea eb); [subst; rewrite Pos.compare_cont_spec; cbn [Pos.switch_Eq CompOpp];
      destruct (Pos.compare_spec ma mb) | |]; cmp_cases.
Qed.

Lemma SFltb_nan_r (a : spec_float) : SFltb a S754_nan = false.
Proof. by destruct a. Qed.

Lemma SFltb_nan_l (a : spec_float) : SFltb S754_nan a = false.
Proof. by destruct a. Qed.

Lemma SFltb_true_not_nan (a b : spec_float) :
  SFltb a b = true -> is_nan a = false /\ is_nan b = false.
Proof.
  destruct a, b; try discriminate; auto.
Qed.

Lemma SFltb_false_trans (a b c : spec_float) :
  is_nan a = false -> is_nan b = false ->
  SFltb a b = false -> SFltb b c = false -> SFltb a c = false.
Proof.
  intros Ha Hb Hab Hbc.
  destruct (is_nan c) eqn:Hc.
  { destruct c; try discriminate. apply SFltb_nan_r. }
  destruct (SFltb a c) eqn:Hac; [|done].
  apply SFltb_key in Hac; [|done..].
  assert (~ key_lt (SFkey a) (SFkey b)) as Nab
    by (rewrite <- SFltb_key by done; congruence).
  assert (~ key_lt (SFkey b) (SFkey c)) as Nbc
    by (rewrite <- SFltb_key by done; congruence).
  unfold key_lt in *. lia.
Qed.

Lemma SFltb_below_false (r p x : spec_float) :
  is_nan r = false -> SFltb p x = true -> SFltb r x = false -> SFltb r p = false.
Proof.
  intros Hr Hpx Hrx.
  destruct (SFltb_true_not_nan _ _ Hpx) as [Hp Hx].
  destruct (SFltb r p) eqn:Hrp; [|done].
  apply SFltb_key in Hrp; [|done..]. apply SFltb_key in Hpx; [|done..].
  assert (~ key_lt (SFkey r) (SFkey x)) as Nrx
    by (rewrite <- SFltb_key by done; congruence).
  unfold key_lt in *. lia.
Qed.

Lemma SFltb_irrefl (a : spec_float) : SFltb a a = false.
Proof.
  destruct (is_nan a) eqn:Ha.
  { destruct a; try discriminate. done. }
  destruct (SFltb a a) eqn:Haa; [|done].
  apply SFltb_key in Haa; [|done..]. unfold key_lt in Haa. lia.
Qed.

Lemma bucket_scan_max (fft : list spec_float) (n : nat) :
  forall (b0 : Z) (peak r : spec_float),
    is_nan peak = false ->
    bucket_scan fft b0 n peak = Some r ->
    is_nan r = false /\ SFltb r peak = false /\
    (forall b, b0 <= b < b0 + Z.of_nat n ->
       exists x, fft !! Z.to_nat (1 + b) = Some x /\ SFltb r x = false) /\
    (r = peak \/
     exists b, b0 <= b < b0 + Z.of_nat n /\ fft !! Z.to_nat (1 + b) = Some r).
Proof.
  induction n as [|n IH]; intros b0 peak r Hpeak Hscan.
  - cbn in Hscan. injection Hscan as <-.
    repeat split; [done | apply SFltb_irrefl | lia | by left].
  - cbn [bucket_scan] in Hscan.
    destruct (fft !! Z.to_nat (1 + b0)) as [x|] eqn:Hx; [|discriminate].
    cbn in Hscan. unfold F32.ltb in Hscan.
    destruct (SFltb peak x) eqn:Hlt.
    + destruct (SFltb_true_not_nan _ _ Hlt) as [_ Hxn].
      destruct (IH _ _ _ Hxn Hscan) as (Hr & Hrx & Hall & Hmem).
      repeat split; [done | by apply (SFltb_below_false r peak x) | |].
      * intros b Hb. destruct (decide (b = b0)) as [->|Hne]; [by eauto|].
        apply Hall. lia.
      * right. destruct Hmem as [->|(b & Hb & Hbr)].
        -- exists b0. split; [lia | done].
        -- exists b. split; [lia | done].
    + destruct (IH _ _ _ Hpeak Hscan) as (Hr & Hrp & Hall & Hmem).
      repeat split; [done | done | |].
      * intros b Hb. destruct (decide (b = b0)) as [->|Hne].
        -- exists x. split; [done|]. by apply (SFltb_false_trans r peak x).
        -- apply Hall. lia.
      * destruct Hmem as [->|(b & Hb & Hbr)]; [by left|].
        right. exists b. split; [lia | done].
Qed.

Lemma bucket_scan_is_Some (fft : list spec_float) (n : nat) :
  forall (b0 : Z) (peak : spec_float),
    0 <= b0 -> b0 + Z.of_nat n < Z.of_nat (length fft) ->
    is_Some (bucket_scan fft b0 n peak).
Proof.
  induction n as [|n IH]; intros b0 peak Hb0 Hlen; [by eexists|].
  cbn [bucket_scan].
  destruct (lookup_lt_is_Some_2 fft (Z.to_nat (1 + b0))) as [x Hx]; [lia|].
  rewrite Hx. cbn. apply IH; lia.
Qed.

(** ** The loop of [applyFft] *)

Section Properties.

Context {platform : Platform}.

Lemma bucket_end_gt (size i b0 : Z) : b0 + 1 <= bucket_end size i b0.
Proof. unfold bucket_end. case_match; lia. Qed.

Lemma bucket_start_step (size : Z) (k : nat) :
  bucket_start size k + 1 <= bucket_start size (S k).
Proof. cbn [bucket_start]. apply bucket_end_gt. Qed.

Lemma bucket_start_mono (size : Z) (k k' : nat) :
  (k <= k')%nat -> bucket_start size k + Z.of_nat (k' - k) <= bucket_start size k'.
Proof.
  induction 1 as [|k' Hle IH].
  - replace (k - k)%nat with 0%nat by lia. lia.
  - pose proof (bucket_start_step size k'). lia.
Qed.

Lemma bucket_start_nonneg (size : Z) (k : nat) : Z.of_nat k <= bucket_start size k.
Proof.
  pose proof (bucket_start_mono size 0 k ltac:(lia)) as H.
  cbn [bucket_start] in H. lia.
Qed.

Lemma in_bucket_exists (size : Z) (n : nat) (b : Z) :
  0 <= b < bucket_start size n -> exists k : nat, (k < n)%nat /\ in_bucket size k b.
Proof.
  induction n as [|n IH]; intros Hb.
  - cbn [bucket_start] in Hb. lia.
  - destruct (decide (b < bucket_start size n)) as [Hlt|Hge].
    + destruct IH as (k & Hk & Hin); [lia|]. exists k. split; [lia | done].
    + exists n. split; [lia|]. unfold in_bucket. lia.
Qed.

Lemma in_bucket_unique (size : Z) (k k' : nat) (b : Z) :
  in_bucket size k b -> in_bucket size k' b -> k = k'.
Proof.
  unfold in_bucket. intros Hk Hk'.
  destruct (Nat.lt_trichotomy k k') as [Hlt|[Heq|Hgt]]; [|done|].
  - pose proof (bucket_start_mono size (S k) k' ltac:(lia)). lia.
  - pose proof (bucket_start_mono size (S k') k ltac:(lia)). lia.
Qed.

(** The fields the loop leaves alone. *)
Lemma loop_inv_fields isLed s0 k l :
  loop_inv isLed s0 k l ->
  m_fft (loop_state l) = m_fft s0 /\ m_frames (loop_state l) = m_frames s0 /\
  m_isLiquidMode (loop_state l) = m_isLiquidMode s0 /\
  m_minColor (loop_state l) = m_minColor s0 /\ m_maxColor (loop_state l) = m_maxColor s0 /\
  m_generator (loop_state l) = m_generator s0.
Proof.
  intros [_ Hf _ _ _ _ _]. by rewrite Hf.
Qed.

Lemma channel_rgb_frame (s s' : SoundManagerBase) (val : Z) :
  m_isLiquidMode s' = m_isLiquidMode s -> m_minColor s' = m_minColor s ->
  m_maxColor s' = m_maxColor s -> m_generator s' = m_generator s ->
  channel_rgb s' val = channel_rgb s val.
Proof. unfold channel_rgb. by intros -> -> -> ->. Qed.

Lemma loop_inv_init isLed s0 : loop_inv isLed s0 0 (mkLoop 0 false s0).
Proof.
  split; cbn; try done.
  - by destruct s0.
  - intros j Hj. lia.
  - split; [done|]. intros (j & r & Hj & _). lia.
Qed.

(** Under the invariant, an iteration is the channel function of the
    initial state. *)
Lemma applyFft_body_channel isLed s0 k l :
  loop_inv isLed s0 k l -> (k < length (m_colors s0))%nat ->
  applyFft_body isLed k l =
  r ← channel_result isLed s0 k;
  Some (loop_next (Z.of_nat (length (m_colors s0))) k l r).
Proof.
  intros Hinv Hk.
  destruct (loop_inv_fields _ _ _ _ Hinv) as (Hfft & Hfr & Hm & Hmin & Hmax & Hg).
  destruct Hinv as [Hb0 Hf Hlc Hlp Hrest _ _].
  destruct (Hrest k ltac:(lia)) as [Hck Hpk].
  unfold applyFft_body, channel_result, channel_raw,
    loop_next.
  rewrite Hlc, Hb0, Hfft, Hfr, Hpk. cbn [bucket_start].
  destruct (bucket_peak _ _ _) as [raw|]; [|done]. cbn.
  destruct (m_peaks s0 !! k) as [p|]; [|done]. cbn.
  destruct (renormalize _ _) as [val|]; [|done]. cbn.
  rewrite Hck.
  destruct (m_colors s0 !! k) as [c|] eqn:Hc; cbn.
  2:{ apply lookup_ge_None in Hc. lia. }
  rewrite !(channel_rgb_frame s0) by (cbn; congruence).
  destruct (isLed k); cbn.
  - do 2 f_equal. by destruct (c =? _), (loop_changed l).
  - by rewrite orb_false_r.
Qed.

Lemma channel_result_peak_lookup isLed s i r :
  channel_result isLed s i = Some r -> (i < length (m_peaks s))%nat.
Proof.
  unfold channel_result. intros H.
  destruct (channel_raw s i); [|done]. cbn in H.
  destruct (m_peaks s !! i) eqn:Hp; [|done].
  by apply lookup_lt_Some in Hp.
Qed.

Lemma loop_next_inv isLed s0 k l r :
  loop_inv isLed s0 k l -> (k < length (m_colors s0))%nat ->
  channel_result isLed s0 k = Some r ->
  loop_inv isLed s0 (S k) (loop_next (Z.of_nat (length (m_colors s0))) k l r).
Proof.
  intros [Hb0 Hf Hlc Hlp Hrest Hdone Hch] Hk Hr.
  pose proof (channel_result_peak_lookup _ _ _ _ Hr) as Hkp.
  split; unfold loop_next; cbn.
  - done.
  - rewrite Hf at 3. by destruct s0.
  - by rewrite length_insert.
  - by rewrite length_insert.
  - intros j Hj. rewrite !list_lookup_insert_ne by lia. apply Hrest. lia.
  - intros j Hj. destruct (decide (j = k)) as [->|Hne].
    + exists r. rewrite !list_lookup_insert_eq by lia. done.
    + destruct (Hdone j ltac:(lia)) as (r' & Hr' & Hp' & Hc').
      exists r'. rewrite !list_lookup_insert_ne by lia. done.
  - rewrite orb_true_iff, Hch. split.
    + intros [(j & r' & Hj & Hr' & Ht)|Ht].
      * exists j, r'. split; [lia | done].
      * exists k, r. split; [lia | done].
    + intros (j & r' & Hj & Hr' & Ht).
      destruct (decide (j = k)) as [->|Hne].
      * right. congruence.
      * left. exists j, r'. split; [lia | done].
Qed.

(** The loop keeps the invariant, and fails exactly when an iteration does. *)
Lemma applyFft_loop_inv isLed s0 (n : nat) :
  forall (k : nat) (l l' : Loop),
    loop_inv isLed s0 k l -> (k + n <= length (m_colors s0))%nat ->
    applyFft_loop isLed n k l = Some l' ->
    loop_inv isLed s0 (k + n) l'.
Proof.
  induction n as [|n IH]; intros k l l' Hinv Hn Hloop.
  - cbn in Hloop. injection Hloop as <-. by rewrite Nat.add_0_r.
  - cbn [applyFft_loop] in Hloop.
    rewrite (applyFft_body_channel _ _ _ _ Hinv) in Hloop by lia.
    destruct (channel_result isLed s0 k) as [r|] eqn:Hr; [|done]. cbn in Hloop.
    replace (k + S n)%nat with (S k + n)%nat by lia.
    eapply IH; [|lia|done]. apply loop_next_inv; [done|lia|done].
Qed.

Lemma applyFft_loop_is_Some isLed s0 (n : nat) :
  forall (k : nat) (l : Loop),
    loop_inv isLed s0 k l -> (k + n <= length (m_colors s0))%nat ->
    (forall j : nat, (k <= j < k + n)%nat -> is_Some (channel_result isLed s0 j)) ->
    is_Some (applyFft_loop isLed n k l).
Proof.
  induction n as [|n IH]; intros k l Hinv Hn Hall; [by eexists|].
  cbn [applyFft_loop].
  rewrite (applyFft_body_channel _ _ _ _ Hinv) by lia.
  destruct (Hall k ltac:(lia)) as [r Hr]. rewrite Hr. cbn.
  apply IH; [|lia|].
  - apply loop_next_inv; [done|lia|done].
  - intros j Hj. apply Hall. lia.
Qed.

(** [applyFft], channel by channel. *)
Lemma applyFft_channels isLed s changed s' :
  applyFft isLed s = Some (changed, s') ->
  s' = with_colors (m_colors s') (with_peaks (m_peaks s') s) /\
  length (m_colors s') = length (m_colors s) /\
  length (m_peaks s') = length (m_peaks s) /\
  (forall i : nat, (i < length (m_colors s))%nat ->
     exists r, channel_result isLed s i = Some r /\
       m_peaks s' !! i = Some r.1.1 /\ m_colors s' !! i = Some r.1.2) /\
  (forall i : nat, (length (m_colors s) <= i)%nat -> m_peaks s' !! i = m_peaks s !! i) /\
  (changed = true <->
   exists (i : nat) r, (i < length (m_colors s))%nat /\
     channel_result isLed s i = Some r /\ r.2 = true).
Proof.
  unfold applyFft. intros H.
  destruct (applyFft_loop _ _ _ _) as [l|] eqn:Hloop; [|done].
  cbn in H. injection H as <- <-.
  apply (applyFft_loop_inv isLed s) in Hloop; [|apply loop_inv_init|cbn; lia].
  cbn in Hloop. destruct Hloop as [_ Hf Hlc Hlp Hrest Hdone Hch].
  repeat split; try done.
  - intros i Hi. by apply Hrest.
  - apply Hch.
  - apply Hch.
Qed.

Lemma applyFft_is_Some isLed s :
  (forall i : nat, (i < length (m_colors s))%nat -> is_Some (channel_result isLed s i)) ->
  is_Some (applyFft isLed s).
Proof.
  intros Hall. unfold applyFft.
  destruct (applyFft_loop_is_Some isLed s (length (m_colors s)) 0 (mkLoop 0 false s))
    as [l Hl]; [apply loop_inv_init|cbn; lia|intros j Hj; apply Hall; lia|].
  rewrite Hl. by eexists.
Qed.

(** ** The peak tracker *)

Lemma scale_val_range (peak : spec_float) : 0 <= scale_val peak <= specHeight.
Proof.
  unfold scale_val, specHeight.
  repeat case_match; lia.
Qed.

Lemma decay_peak_lower (frames val p : Z) :
  val <= decay_peak frames val p /\ 0 <= decay_peak frames val p.
Proof. unfold decay_peak. repeat case_match; lia. Qed.

Lemma decay_peak_upper (frames val p : Z) :
  val <= specHeight -> p <= specHeight -> decay_peak frames val p <= specHeight.
Proof. unfold decay_peak, specHeight. repeat case_match; lia. Qed.

(** Without the decrement of line 202, a peak that already dominates the
    value is left as it is. *)
Lemma decay_peak_idle (frames val p : Z) :
  Z.rem frames 5 <> 0 -> 0 <= p -> val <= p -> decay_peak frames val p = p.
Proof. unfold decay_peak. repeat case_match; lia. Qed.

Lemma renormalize_guard (val p : Z) :
  0 <= val ->
  ((val <? p - 5) = true -> 6 <= p) /\
  renormalize val p = Some (if val <? p - 5 then Z.quot (val * specHeight) p else val).
Proof.
  intros Hval. unfold renormalize.
  destruct (val <? p - 5) eqn:Hlt.
  - apply Z.ltb_lt in Hlt. split; [lia|].
    destruct (p =? 0) eqn:Hp; [lia | done].
  - split; [discriminate | done].
Qed.

Lemma renormalize_is_Some (frames : Z) (peak : spec_float) (p : Z) :
  is_Some (renormalize (scale_val peak) (decay_peak frames (scale_val peak) p)).
Proof.
  destruct (renormalize_guard (scale_val peak)
              (decay_peak frames (scale_val peak) p)) as [_ ->]; [|by eexists].
  apply scale_val_range.
Qed.

(** The value that reaches the colour mapping lies in [0, specHeight], and
    the product of line 206 is at most [10^6]. *)
Lemma renormalize_range (val p out : Z) :
  0 <= val <= specHeight -> renormalize val p = Some out ->
  0 <= out <= specHeight /\ 0 <= val * specHeight <= 1000000.
Proof.
  unfold renormalize, specHeight. intros Hval Hout.
  split; [|lia].
  destruct (val <? p - 5) eqn:Hlt; [|injection Hout as <-; lia].
  apply Z.ltb_lt in Hlt.
  destruct (p =? 0); [done|]. injection Hout as <-.
  rewrite Z.quot_div_nonneg by lia.
  split; [apply Z.div_pos; lia|].
  apply Z.div_le_upper_bound; nia.
Qed.

(** C2. In the renormalisation of lines 205 and 206 the division
    [val * specHeight / m_peaks[i]] never has a zero divisor: for every
    peak and every value [val >= 0], the branch condition
    [val < m_peaks[i] - 5] makes the divisor at least 6, so the step always
    yields a value; and the value [applyFft] passes is never negative. *)
Theorem renormalize_divisor_guarded (val p : Z) :
  0 <= val ->
  ((val <? p - 5) = true -> 6 <= p) /\
  renormalize val p = Some (if val <? p - 5 then Z.quot (val * specHeight) p else val) /\
  (forall peak : spec_float, 0 <= scale_val peak).
Proof.
  intros Hval. destruct (renormalize_guard val p Hval) as [Hdiv Hsome].
  repeat split; try done. intros peak. apply scale_val_range.
Qed.

Lemma channel_result_peak isLed s i r :
  channel_result isLed s i = Some r ->
  exists raw p, channel_raw s i = Some raw /\ m_peaks s !! i = Some p /\
    r.1.1 = decay_peak (m_frames s) (scale_val raw) p.
Proof.
  unfold channel_result. intros H.
  destruct (channel_raw s i) as [raw|]; [|done]. cbn in H.
  destruct (m_peaks s !! i) as [p|]; [|done]. cbn in H.
  destruct (renormalize _ _) as [val|]; [|done]. cbn in H.
  destruct (m_colors s !! i) as [c|]; [|done]. cbn in H.
  exists raw, p. destruct (isLed i); injection H as <-; done.
Qed.

Lemma applyFft_peaks_ok isLed s changed s' :
  peaks_ok s -> applyFft isLed s = Some (changed, s') -> peaks_ok s'.
Proof.
  unfold peaks_ok. intros Hok Happly.
  destruct (applyFft_channels _ _ _ _ Happly) as (_ & _ & _ & Hchan & Hrest & _).
  apply Forall_lookup_2. intros i p' Hp'.
  destruct (decide (i < length (m_colors s))%nat) as [Hi|Hi].
  - destruct (Hchan i Hi) as (r & Hr & Hpr & _).
    destruct (channel_result_peak _ _ _ _ Hr) as (raw & p & _ & Hp & Heq).
    assert (p' = r.1.1) as -> by congruence. rewrite Heq.
    pose proof (scale_val_range raw).
    pose proof (decay_peak_lower (m_frames s) (scale_val raw) p).
    pose proof (Forall_lookup_1 _ _ _ _ Hok Hp) as Hp0. cbn in Hp0.
    pose proof (decay_peak_upper (m_frames s) (scale_val raw) p). lia.
  - rewrite Hrest in Hp' by lia. by apply (Forall_lookup_1 _ _ _ _ Hok Hp').
Qed.

(** [updateColors] is [applyFft] on the state with the frame counted and
    the spectrum refreshed, followed by the gated emission. *)
Lemma updateColors_applyFft spectrum isLed s s' signals :
  updateColors spectrum isLed s = Some (s', signals) <->
  exists changed,
    applyFft isLed (with_fft spectrum (with_frames (m_frames s + 1) s)) = Some (changed, s') /\
    signals =
      if changed || negb (m_isSendDataOnlyIfColorsChanged s)
      then [updateLedsColors (m_colors s')] else [].
Proof.
  unfold updateColors.
  destruct (applyFft isLed _) as [[changed s1]|] eqn:Happly; cbn.
  - assert (m_isSendDataOnlyIfColorsChanged s1 = m_isSendDataOnlyIfColorsChanged s) as Hg.
    { destruct (applyFft_channels _ _ _ _ Happly) as (-> & _). done. }
    rewrite Hg. split.
    + intros [= <- <-]. by exists changed.
    + intros (changed' & [= <- <-] & ->). done.
  - split; [done | by intros (? & ? & _)].
Qed.

(** C6. Every stored peak is at least 0 and at most [specHeight]: the
    peaks [initColors] creates are, and [applyFft] and [updateColors] keep
    them so, through the decrement of every fifth frame, the floor at 0 and
    the raise to the clamped value. *)
Theorem peaks_stay_in_range :
  (forall n s, peaks_ok (initColors n s)) /\
  (forall isLed s changed s',
     peaks_ok s -> applyFft isLed s = Some (changed, s') -> peaks_ok s') /\
  (forall spectrum isLed s s' signals,
     peaks_ok s -> updateColors spectrum isLed s = Some (s', signals) -> peaks_ok s').
Proof.
  split; [|split].
  - intros n s. unfold peaks_ok, initColors, specHeight. cbn.
    apply Forall_replicate. lia.
  - apply applyFft_peaks_ok.
  - intros spectrum isLed s s' signals Hok Hupd.
    apply updateColors_applyFft in Hupd as (changed & Happly & _).
    by apply (applyFft_peaks_ok isLed _ changed s') in Happly.
Qed.

(** ** Calls without channels *)

Lemma initColors_nonpositive (n : Z) (s : SoundManagerBase) :
  n <= 0 -> m_colors (initColors n s) = [] /\ m_peaks (initColors n s) = [].
Proof.
  intros Hn. unfold initColors. cbn.
  replace (Z.to_nat n) with 0%nat by lia. done.
Qed.

(** C4, as the code has it. With no channels (also after [initColors]
    was given a count of 0 or less) [updateColors] still counts the frame
    and refreshes the spectrum; it leaves every other field alone, and it
    emits the empty colour sequence exactly when send-only-on-change is
    off. *)
Theorem updateColors_without_channels :
  (forall n s, n <= 0 -> m_colors (initColors n s) = []) /\
  (forall spectrum isLed s,
     m_colors s = [] ->
     updateColors spectrum isLed s =
     Some (with_fft spectrum (with_frames (m_frames s + 1) s),
           if m_isSendDataOnlyIfColorsChanged s then [] else [updateLedsColors []])).
Proof.
  split.
  - intros n s Hn. apply (initColors_nonpositive n s Hn).
  - intros spectrum isLed s Hs. unfold updateColors, applyFft. cbn. rewrite Hs. cbn.
    rewrite Hs. by destruct (m_isSendDataOnlyIfColorsChanged s).
Qed.

(** ** Change detection *)

Lemma channel_result_color isLed s i r :
  channel_result isLed s i = Some r ->
  exists c, m_colors s !! i = Some c /\
    (isLed i = true -> r.2 = negb (c =? r.1.2)) /\
    (isLed i = false -> r.1.2 = 0 /\ r.2 = false).
Proof.
  unfold channel_result. intros H.
  destruct (channel_raw s i) as [raw|]; [|done]. cbn in H.
  destruct (m_peaks s !! i) as [p|]; [|done]. cbn in H.
  destruct (renormalize _ _) as [val|]; [|done]. cbn in H.
  destruct (m_colors s !! i) as [c|]; [|done]. cbn in H.
  exists c. split; [done|].
  destruct (isLed i); injection H as <-; cbn; split; done.
Qed.

(** A disabled channel is stored as 0 without a comparison. *)
Lemma applyFft_disabled isLed s changed s' (i : nat) :
  applyFft isLed s = Some (changed, s') ->
  (i < length (m_colors s))%nat -> isLed i = false -> m_colors s' !! i = Some 0.
Proof.
  intros Happly Hi Hoff.
  destruct (applyFft_channels _ _ _ _ Happly) as (_ & _ & _ & Hchan & _).
  destruct (Hchan i Hi) as (r & Hr & _ & Hc).
  destruct (channel_result_color _ _ _ _ Hr) as (c & _ & _ & Hz).
  destruct (Hz Hoff) as [Hz0 _]. by rewrite Hc, Hz0.
Qed.

(** [changed] is set exactly when an enabled channel gets a colour other
    than the one it had. *)
Lemma applyFft_changed isLed s changed s' :
  applyFft isLed s = Some (changed, s') ->
  (changed = true <->
   exists (i : nat) c c', isLed i = true /\
     m_colors s !! i = Some c /\ m_colors s' !! i = Some c' /\ c <> c').
Proof.
  intros Happly.
  destruct (applyFft_channels _ _ _ _ Happly) as (_ & Hlc & _ & Hchan & _ & Hch).
  rewrite Hch. split.
  - intros (i & r & Hi & Hr & Ht).
    destruct (Hchan i Hi) as (r' & Hr' & _ & Hc').
    assert (r' = r) as -> by congruence.
    destruct (channel_result_color _ _ _ _ Hr) as (c & Hc & Hon & Hoff).
    destruct (isLed i) eqn:Hled.
    + exists i, c, r.1.2. repeat split; try done.
      specialize (Hon eq_refl). rewrite Ht in Hon.
      intros ->. rewrite Z.eqb_refl in Hon. done.
    + destruct (Hoff eq_refl) as [_ Hf]. congruence.
  - intros (i & c & c' & Hled & Hc & Hc' & Hne).
    assert (i < length (m_colors s))%nat as Hi by (by apply lookup_lt_Some in Hc).
    destruct (Hchan i Hi) as (r & Hr & _ & Hcr).
    exists i, r. repeat split; try done.
    destruct (channel_result_color _ _ _ _ Hr) as (c0 & Hc0 & Hon & _).
    rewrite (Hon Hled).
    assert (c0 = c) as -> by congruence. assert (r.1.2 = c') as -> by congruence.
    apply negb_true_iff, Z.eqb_neq. done.
Qed.

(** What [updateColors] emits. *)
Lemma updateColors_signals spectrum isLed s s' signals :
  updateColors spectrum isLed s = Some (s', signals) ->
  (signals = [] \/ signals = [updateLedsColors (m_colors s')]) /\
  (m_isSendDataOnlyIfColorsChanged s = false -> signals = [updateLedsColors (m_colors s')]) /\
  (m_isSendDataOnlyIfColorsChanged s = true ->
   (signals = [] <->
    forall (i : nat) c c', isLed i = true ->
      m_colors s !! i = Some c -> m_colors s' !! i = Some c' -> c = c')).
Proof.
  intros Hupd. apply updateColors_applyFft in Hupd as (changed & Happly & ->).
  pose proof (applyFft_changed _ _ _ _ Happly) as Hch. cbn in Hch.
  split; [|split].
  - destruct (changed || _); auto.
  - intros ->. by rewrite orb_true_r.
  - intros ->. rewrite orb_false_r. destruct changed.
    + split; [done|]. intros Hsame.
      destruct (proj1 Hch eq_refl) as (i & c & c' & Hled & Hc & Hc' & Hne).
      destruct Hne. by eapply Hsame.
    + split; [|done]. intros _ i c c' Hled Hc Hc'.
      destruct (decide (c = c')) as [|Hne]; [done|].
      assert (false = true) by (apply Hch; eauto 10). done.
Qed.

(** C9. [applyFft] stores 0 for a disabled channel without comparing it
    with the colour the channel had, and [changed] is set by enabled
    channels only: with send-only-on-change on, [updateColors] emits
    nothing exactly when no enabled channel changes colour, whatever
    colours the disabled channels had before. *)
Theorem disabled_channel_not_compared spectrum isLed s s' signals :
  m_isSendDataOnlyIfColorsChanged s = true ->
  updateColors spectrum isLed s = Some (s', signals) ->
  (forall i : nat, (i < length (m_colors s))%nat -> isLed i = false ->
     m_colors s' !! i = Some 0) /\
  (signals = [] <->
   forall (i : nat) c c', isLed i = true ->
     m_colors s !! i = Some c -> m_colors s' !! i = Some c' -> c = c').
Proof.
  intros Hgate Hupd. split.
  - intros i Hi Hoff.
    apply updateColors_applyFft in Hupd as (changed & Happly & _).
    by apply (applyFft_disabled _ _ _ _ i Happly).
  - destruct (updateColors_signals _ _ _ _ _ Hupd) as (_ & _ & Hiff).
    apply (Hiff Hgate).
Qed.

(** ** Mode switches and reset *)

Lemma setLiquidMode_gradient spectrum isLed s :
  m_isEnabled s = true ->
  setLiquidMode spectrum isLed false s =
  updateColors spectrum isLed
    (with_generator (Generator.stop (m_generator s)) (with_isLiquidMode false s)).
Proof.
  intros Hen. unfold setLiquidMode.
  cbn [m_isLiquidMode m_isEnabled with_isLiquidMode with_generator andb].
  by rewrite Hen.
Qed.

(** C7, as the code has it. Switching to the gradient while enabled
    stops the generator and runs [updateColors] once; that call emits at
    most one colour sequence: always when send-only-on-change is off, and
    otherwise only if an enabled channel changed colour. *)
Theorem setLiquidMode_gradient_recomputes spectrum isLed s s' signals :
  m_isEnabled s = true ->
  setLiquidMode spectrum isLed false s = Some (s', signals) ->
  m_isLiquidMode s' = false /\ gen_running (m_generator s') = false /\
  updateColors spectrum isLed
    (with_generator (Generator.stop (m_generator s)) (with_isLiquidMode false s)) =
    Some (s', signals) /\
  (signals = [] \/ signals = [updateLedsColors (m_colors s')]) /\
  (m_isSendDataOnlyIfColorsChanged s = false -> signals = [updateLedsColors (m_colors s')]) /\
  (m_isSendDataOnlyIfColorsChanged s = true ->
   (signals = [] <->
    forall (i : nat) c c', isLed i = true ->
      m_colors s !! i = Some c -> m_colors s' !! i = Some c' -> c = c')).
Proof.
  intros Hen Hset. rewrite (setLiquidMode_gradient _ _ _ Hen) in Hset.
  pose proof Hset as Hupd.
  apply updateColors_applyFft in Hupd as (changed & Happly & _).
  destruct (applyFft_channels _ _ _ _ Happly) as (Hframe & _).
  split; [by rewrite Hframe|]. split; [by rewrite Hframe|]. split; [done|].
  apply (updateColors_signals _ _ _ _ _ Hset).
Qed.

(** [m_colors] and [m_peaks] keep one entry per channel. *)
Lemma initColors_sizes_agree (n : Z) (s : SoundManagerBase) : sizes_agree (initColors n s).
Proof. unfold sizes_agree, initColors. cbn. by rewrite !length_replicate. Qed.

Lemma updateColors_sizes_agree spectrum isLed s s' signals :
  sizes_agree s -> updateColors spectrum isLed s = Some (s', signals) -> sizes_agree s'.
Proof.
  unfold sizes_agree. intros Hsz Hupd.
  apply updateColors_applyFft in Hupd as (changed & Happly & _).
  destruct (applyFft_channels _ _ _ _ Happly) as (_ & Hlc & Hlp & _).
  cbn in Hlc, Hlp. congruence.
Qed.

Lemma reset_sizes_agree (s : SoundManagerBase) : sizes_agree (reset s).
Proof. unfold sizes_agree, reset, initColors. cbn. by rewrite !length_replicate. Qed.

(** C10. [reset()] keeps the channel count: afterwards [m_colors] and
    [m_peaks] are as long as before and hold only zeros, the generator has
    been reset, and no other field has changed. *)
Theorem reset_keeps_channel_count (s : SoundManagerBase) :
  sizes_agree s ->
  length (m_colors (reset s)) = length (m_colors s) /\
  length (m_peaks (reset s)) = length (m_peaks s) /\
  Forall (fun c => c = 0) (m_colors (reset s)) /\
  Forall (fun p => p = 0) (m_peaks (reset s)) /\
  m_generator (reset s) = Generator.reset (m_generator s) /\
  m_isInited (reset s) = m_isInited s /\ m_isEnabled (reset s) = m_isEnabled s /\
  m_device (reset s) = m_device s /\
  m_minColor (reset s) = m_minColor s /\ m_maxColor (reset s) = m_maxColor s /\
  m_isLiquidMode (reset s) = m_isLiquidMode s /\
  m_isSendDataOnlyIfColorsChanged (reset s) = m_isSendDataOnlyIfColorsChanged s /\
  m_frames (reset s) = m_frames s /\ m_fft (reset s) = m_fft s.
Proof.
  unfold sizes_agree. intros Hsz. unfold reset, initColors. cbn.
  rewrite Nat2Z.id, !length_replicate.
  repeat split; try done; by apply Forall_replicate.
Qed.

(** ** The buckets *)

(** Line 194 is a minimum, line 195 a maximum. *)
Lemma bucket_cap_min (size i : Z) :
  bucket_cap size i = Z.min (fftSize - 1) (to_size_t (pow2 (bucket_exponent size i))).
Proof. unfold bucket_cap. case_match; lia. Qed.

Lemma bucket_end_max (size i b0 : Z) :
  bucket_end size i b0 = Z.max (b0 + 1) (bucket_cap size i).
Proof. unfold bucket_end. case_match; lia. Qed.

(** The boundaries stay below the FFT size plus the channel count. *)
Lemma bucket_start_upper (size : Z) (k : nat) :
  bucket_start size k <= fftSize - 1 + Z.of_nat k.
Proof.
  induction k as [|k IH]; [by unfold fftSize|].
  cbn [bucket_start]. rewrite bucket_end_max, bucket_cap_min. lia.
Qed.

(** With one channel the exponent is a NaN, and the range of the channel
    is what the platform makes of [pow(2, NaN)] as a [size_t]. *)
Lemma single_channel_bucket :
  bucket_exponent 1 0 = S754_nan /\
  bucket_ranges 1 1 = [(0, Z.max 1 (Z.min (fftSize - 1) (to_size_t (pow2 S754_nan))))].
Proof.
  split; [done|]. unfold bucket_ranges. cbn [seq map bucket_start].
  by rewrite bucket_end_max, bucket_cap_min.
Qed.

Lemma bucket_ranges_length (size : Z) (n : nat) : length (bucket_ranges size n) = n.
Proof. unfold bucket_ranges. by rewrite length_map, length_seq. Qed.

Lemma bucket_ranges_lookup (size : Z) (n k : nat) :
  (k < n)%nat ->
  bucket_ranges size n !! k = Some (bucket_start size k, bucket_start size (S k)).
Proof.
  intros Hk. unfold bucket_ranges.
  rewrite list_lookup_fmap, lookup_seq_lt by done. done.
Qed.

(** The local [peak] of a channel is the largest magnitude of its range,
    and 0 if no magnitude is positive. *)
Lemma channel_raw_max (s : SoundManagerBase) (i : nat) (raw : spec_float) :
  channel_raw s i = Some raw ->
  is_nan raw = false /\
  (forall b, in_bucket (Z.of_nat (length (m_colors s))) i b ->
     exists x, m_fft s !! Z.to_nat (1 + b) = Some x /\ F32.ltb raw x = false) /\
  (raw = S754_zero false \/
   exists b, in_bucket (Z.of_nat (length (m_colors s))) i b /\
     m_fft s !! Z.to_nat (1 + b) = Some raw).
Proof.
  unfold channel_raw, bucket_peak, in_bucket. intros Hraw.
  pose proof (bucket_start_step (Z.of_nat (length (m_colors s))) i) as Hstep.
  apply bucket_scan_max in Hraw as (Hnan & _ & Hall & Hmem); [|done].
  split; [done|]. split.
  - intros b Hb. apply Hall. lia.
  - destruct Hmem as [->|(b & Hb & Hlook)]; [by left|].
    right. exists b. split; [lia | done].
Qed.

Lemma channel_raw_is_Some (s : SoundManagerBase) (i : nat) :
  bucket_start (Z.of_nat (length (m_colors s))) (S i) < Z.of_nat (length (m_fft s)) ->
  is_Some (channel_raw s i).
Proof.
  intros Hlen. unfold channel_raw, bucket_peak.
  pose proof (bucket_start_step (Z.of_nat (length (m_colors s))) i).
  pose proof (bucket_start_nonneg (Z.of_nat (length (m_colors s))) i).
  apply bucket_scan_is_Some; lia.
Qed.

(** Every field of a channel's result. *)
Lemma channel_result_inv isLed s i r :
  channel_result isLed s i = Some r ->
  exists raw p val c,
    channel_raw s i = Some raw /\ m_peaks s !! i = Some p /\
    renormalize (scale_val raw) (decay_peak (m_frames s) (scale_val raw) p) = Some val /\
    m_colors s !! i = Some c /\
    r = (decay_peak (m_frames s) (scale_val raw) p,
         if isLed i then channel_rgb s val else 0,
         if isLed i then negb (c =? channel_rgb s val) else false).
Proof.
  unfold channel_result. intros H.
  destruct (channel_raw s i) as [raw|]; [|done]. cbn in H.
  destruct (m_peaks s !! i) as [p|]; [|done]. cbn in H.
  destruct (renormalize _ _) as [val|] eqn:Hval; [|done]. cbn in H.
  destruct (m_colors s !! i) as [c|]; [|done]. cbn in H.
  exists raw, p, val, c. repeat split; try done.
  destruct (isLed i); by injection H as <-.
Qed.

Lemma channel_result_intro isLed s i raw p val c :
  channel_raw s i = Some raw -> m_peaks s !! i = Some p ->
  renormalize (scale_val raw) (decay_peak (m_frames s) (scale_val raw) p) = Some val ->
  m_colors s !! i = Some c ->
  channel_result isLed s i =
  Some (decay_peak (m_frames s) (scale_val raw) p,
        if isLed i then channel_rgb s val else 0,
        if isLed i then negb (c =? channel_rgb s val) else false).
Proof.
  intros Hraw Hp Hval Hc. unfold channel_result.
  rewrite Hraw. cbn. rewrite Hp. cbn. rewrite Hval. cbn. rewrite Hc. cbn.
  by destruct (isLed i).
Qed.

(** The reads of [applyFft] stay inside [m_fft] and [m_peaks] when the
    last boundary lies inside the spectrum and every channel has a peak. *)
Lemma applyFft_in_bounds isLed s :
  sizes_agree s ->
  bucket_start (Z.of_nat (length (m_colors s))) (length (m_colors s))
    < Z.of_nat (length (m_fft s)) ->
  is_Some (applyFft isLed s).
Proof.
  unfold sizes_agree. intros Hsz Hlen. apply applyFft_is_Some. intros i Hi.
  destruct (channel_raw_is_Some s i) as [raw Hraw].
  { pose proof (bucket_start_mono (Z.of_nat (length (m_colors s))) (S i)
                  (length (m_colors s)) ltac:(lia)). lia. }
  destruct (lookup_lt_is_Some_2 (m_peaks s) i) as [p Hp]; [lia|].
  destruct (lookup_lt_is_Some_2 (m_colors s) i) as [c Hc]; [lia|].
  destruct (renormalize_is_Some (m_frames s) raw p) as [val Hval].
  rewrite (channel_result_intro isLed s i raw p val c) by done. by eexists.
Qed.

Lemma same_float_eq (x y : spec_float) : same_float x y = true -> x = y.
Proof.
  destruct x as [s|s| |s m e], y as [s'|s'| |s' m' e']; cbn; try done.
  - by intros ->%eqb_prop.
  - by intros ->%eqb_prop.
  - by intros [[->%eqb_prop ->%Pos.eqb_eq]%andb_true_iff ->%Z.eqb_eq]%andb_true_iff.
Qed.

Lemma last_exponent_all : forallb last_exponent_ok (seqZ 2 (fftSize - 2)) = true.
Proof. by vm_compute. Qed.

(** With 2 to [fftSize - 1] channels [i*9.0 / (size - 1)] is exactly [9.0]
    for the last channel: the product and the quotient are exact. *)
Lemma last_exponent (size : Z) :
  2 <= size < fftSize -> bucket_exponent size (size - 1) = F64.of_Z 9.
Proof.
  intros Hsize. pose proof last_exponent_all as Hall.
  rewrite forallb_forall in Hall. apply same_float_eq, Hall.
  apply list_elem_of_In, elem_of_seqZ. lia.
Qed.

(** The last bin a call reads lies inside [m_fft]. *)
Lemma applyFft_last_read isLed s changed s' :
  (1 <= length (m_colors s))%nat ->
  applyFft isLed s = Some (changed, s') ->
  bucket_start (Z.of_nat (length (m_colors s))) (length (m_colors s))
    < Z.of_nat (length (m_fft s)).
Proof.
  intros HN Happly.
  destruct (applyFft_channels _ _ _ _ Happly) as (_ & _ & _ & Hchan & _).
  destruct (Hchan (length (m_colors s) - 1)%nat ltac:(lia)) as (r & Hr & _).
  destruct (channel_result_inv _ _ _ _ Hr) as (raw & _ & _ & _ & Hraw & _).
  destruct (channel_raw_max _ _ _ Hraw) as (_ & Hall & _).
  set (size := Z.of_nat (length (m_colors s))) in *.
  pose proof (bucket_start_step size (length (m_colors s) - 1)) as Hstep.
  pose proof (bucket_start_nonneg size (length (m_colors s) - 1)) as Hnn.
  replace (S (length (m_colors s) - 1)) with (length (m_colors s)) in * by lia.
  destruct (Hall (bucket_start size (length (m_colors s)) - 1)) as (x & Hx & _).
  { unfold in_bucket.
    replace (S (length (m_colors s) - 1)) with (length (m_colors s)) by lia. lia. }
  apply lookup_lt_Some in Hx. lia.
Qed.

(** The boundary after the last of [size] channels: the cap of line 194
    applied to [pow(2, 9.0)], or one bin past the boundary before it. *)
Lemma bucket_start_last (size : nat) :
  2 <= Z.of_nat size < fftSize ->
  bucket_start (Z.of_nat size) size
    = Z.max (bucket_start (Z.of_nat size) (size - 1) + 1)
        (Z.min (fftSize - 1) (to_size_t (pow2 (F64.of_Z 9)))).
Proof.
  intros Hsize. destruct size as [|n]; [lia|].
  cbn [bucket_start]. rewrite bucket_end_max, bucket_cap_min.
  replace (S n - 1)%nat with n by lia.
  assert (bucket_exponent (Z.of_nat (S n)) (Z.of_nat n) = F64.of_Z 9) as ->; [|done].
  replace (Z.of_nat n) with (Z.of_nat (S n) - 1) by lia. by apply last_exponent.
Qed.

(** C1, as the code has it. One call of [applyFft] with [N >= 2]
    channels cuts the bin indices from 1 up to the last boundary into [N]
    ranges: the first starts at bin 1, each starts where the one before it
    ended and is at least one bin wide, so a bin lies in a range exactly
    when it is below the last boundary, and then in one range only. The
    ranges lie inside [m_fft], and with a buffer of at most [fftSize]
    entries they end at the cap of line 194 applied to [pow(2, 9.0)], or
    one bin past the boundary before it if that is larger: at
    [min(fftSize - 1, (size_t) pow(2, 9.0))] or later, which is [2^9]
    where [pow(2, 9.0)] is 512, and not at [fftSize - 1]. Each channel's
    raw value is the largest magnitude of its range (0 if none is
    positive), and it is the value the channel's new peak is computed
    from. One channel is a case of its own: line 193 then divides by
    zero. *)
Theorem bucket_ranges_partition isLed s changed s' :
  (2 <= length (m_colors s))%nat ->
  applyFft isLed s = Some (changed, s') ->
  length (bucket_ranges (Z.of_nat (length (m_colors s))) (length (m_colors s)))
    = length (m_colors s) /\
  bucket_start (Z.of_nat (length (m_colors s))) 0 = 0 /\
  (forall k : nat,
     bucket_start (Z.of_nat (length (m_colors s))) k + 1
       <= bucket_start (Z.of_nat (length (m_colors s))) (S k)) /\
  (forall b,
     0 <= b < bucket_start (Z.of_nat (length (m_colors s))) (length (m_colors s)) <->
     exists k : nat, (k < length (m_colors s))%nat /\
       in_bucket (Z.of_nat (length (m_colors s))) k b) /\
  (forall b (k k' : nat),
     in_bucket (Z.of_nat (length (m_colors s))) k b ->
     in_bucket (Z.of_nat (length (m_colors s))) k' b -> k' = k) /\
  bucket_start (Z.of_nat (length (m_colors s))) (length (m_colors s))
    < Z.of_nat (length (m_fft s)) /\
  (Z.of_nat (length (m_fft s)) <= fftSize ->
   bucket_start (Z.of_nat (length (m_colors s))) (length (m_colors s))
     = Z.max (bucket_start (Z.of_nat (length (m_colors s))) (length (m_colors s) - 1) + 1)
         (Z.min (fftSize - 1) (to_size_t (pow2 (F64.of_Z 9)))) /\
   Z.min (fftSize - 1) (to_size_t (pow2 (F64.of_Z 9)))
     <= bucket_start (Z.of_nat (length (m_colors s))) (length (m_colors s)) /\
   (to_size_t (pow2 (F64.of_Z 9)) = 2 ^ 9 ->
    2 ^ 9 <= bucket_start (Z.of_nat (length (m_colors s))) (length (m_colors s)))) /\
  (forall i : nat, (i < length (m_colors s))%nat ->
     exists raw p,
       channel_raw s i = Some raw /\ is_nan raw = false /\
       (forall b, in_bucket (Z.of_nat (length (m_colors s))) i b ->
          exists x, m_fft s !! Z.to_nat (1 + b) = Some x /\ F32.ltb raw x = false) /\
       (raw = S754_zero false \/
        exists b, in_bucket (Z.of_nat (length (m_colors s))) i b /\
          m_fft s !! Z.to_nat (1 + b) = Some raw) /\
       m_peaks s !! i = Some p /\
       m_peaks s' !! i = Some (decay_peak (m_frames s) (scale_val raw) p)).
Proof.
  intros HN Happly.
  assert (1 <= length (m_colors s))%nat as HN1 by lia.
  pose proof (applyFft_last_read _ _ _ _ HN1 Happly) as Hlast.
  split_and!.
  - apply bucket_ranges_length.
  - done.
  - intros k. apply bucket_start_step.
  - intros b. split.
    + apply in_bucket_exists.
    + intros (k & Hk & Hin). unfold in_bucket in Hin.
      pose proof (bucket_start_nonneg (Z.of_nat (length (m_colors s))) k).
      pose proof (bucket_start_mono (Z.of_nat (length (m_colors s))) (S k)
                    (length (m_colors s)) ltac:(lia)).
      lia.
  - intros b k k' Hin Hin'. by apply (in_bucket_unique _ _ _ _ Hin' Hin).
  - done.
  - intros Hbuf.
    assert (bucket_start (Z.of_nat (length (m_colors s))) (length (m_colors s))
            = Z.max (bucket_start (Z.of_nat (length (m_colors s)))
                       (length (m_colors s) - 1) + 1)
                (Z.min (fftSize - 1) (to_size_t (pow2 (F64.of_Z 9))))) as Hend.
    { apply bucket_start_last.
      pose proof (bucket_start_nonneg (Z.of_nat (length (m_colors s))) (length (m_colors s))).
      lia. }
    split; [done|]. split.
    + rewrite Hend. apply Z.le_max_r.
    + intros H9. rewrite Hend, H9. unfold fftSize. lia.
  - intros i Hi.
    destruct (applyFft_channels _ _ _ _ Happly) as (_ & _ & _ & Hchan & _).
    destruct (Hchan i Hi) as (r & Hr & Hp' & _).
    destruct (channel_result_inv _ _ _ _ Hr)
      as (raw & p & val & c & Hraw & Hp & _ & _ & ->).
    destruct (channel_raw_max _ _ _ Hraw) as (Hnan & Hall & Hmem).
    exists raw, p. split_and!; done.
Qed.

(** [applyFft] completes, with no read outside [m_fft] or [m_peaks] and no
    division by zero, when every channel has a peak and the last boundary
    lies inside the spectrum. *)
Theorem applyFft_completes isLed s :
  sizes_agree s ->
  bucket_start (Z.of_nat (length (m_colors s))) (length (m_colors s))
    < Z.of_nat (length (m_fft s)) ->
  exists changed s', applyFft isLed s = Some (changed, s').
Proof.
  intros Hsz Hlen. destruct (applyFft_in_bounds isLed s Hsz Hlen) as [[changed s'] H].
  by exists changed, s'.
Qed.

(** [m_colors] and [m_peaks] have the same length after [initColors] and
    [reset], and [updateColors] and [setLiquidMode] keep them so. *)
Theorem sizes_agree_invariant :
  (forall n s, sizes_agree (initColors n s)) /\
  (forall s, sizes_agree (reset s)) /\
  (forall spectrum isLed s s' signals,
     sizes_agree s -> updateColors spectrum isLed s = Some (s', signals) -> sizes_agree s') /\
  (forall spectrum isLed state s s' signals,
     sizes_agree s -> setLiquidMode spectrum isLed state s = Some (s', signals) ->
     sizes_agree s').
Proof.
  split_and!.
  - apply initColors_sizes_agree.
  - apply reset_sizes_agree.
  - apply updateColors_sizes_agree.
  - intros spectrum isLed state s s' signals Hsz Hset.
    unfold setLiquidMode in Hset.
    cbn [m_isLiquidMode m_isEnabled with_isLiquidMode with_generator] in Hset.
    destruct (state && m_isEnabled s).
    + injection Hset as <- _. done.
    + destruct (m_isEnabled s).
      * by apply updateColors_sizes_agree in Hset.
      * injection Hset as <- _. done.
Qed.

(** ** Two calls on one spectrum *)

(** The colour of a channel depends on the generator only through its
    current colour, and only in Liquid mode. *)
Lemma channel_rgb_current (s s' : SoundManagerBase) (val : Z) :
  m_isLiquidMode s' = m_isLiquidMode s -> m_minColor s' = m_minColor s ->
  m_maxColor s' = m_maxColor s ->
  (m_isLiquidMode s = true ->
   Generator.current (m_generator s') = Generator.current (m_generator s)) ->
  channel_rgb s' val = channel_rgb s val.
Proof.
  unfold channel_rgb. intros -> -> -> Hgen.
  destruct (m_isLiquidMode s); [by rewrite Hgen|done].
Qed.

(** A second call on the spectrum of the first, on a frame without the
    decrement of line 202 and with the generator's colour as the first
    call found it, recomputes every channel's peak and colour and finds
    nothing changed. [g] is the generator as the second call finds it. *)
Lemma channel_result_again spectrum isLed s changed s1 g (i : nat) :
  Z.rem (m_frames s + 2) 5 <> 0 ->
  (m_isLiquidMode s = true -> Generator.current g = Generator.current (m_generator s)) ->
  applyFft isLed (with_fft spectrum (with_frames (m_frames s + 1) s)) = Some (changed, s1) ->
  (i < length (m_colors s))%nat ->
  exists p c,
    m_peaks s1 !! i = Some p /\ m_colors s1 !! i = Some c /\
    channel_result isLed
      (with_fft spectrum (with_frames (m_frames s1 + 1) (with_generator g s1))) i
      = Some (p, c, false).
Proof.
  intros Hrem Hgen Happly Hi.
  destruct (applyFft_channels _ _ _ _ Happly) as (Hframe & Hlc & _ & Hchan & _).
  cbn in Hlc, Hchan.
  destruct (Hchan i Hi) as (r & Hr & Hp1 & Hc1).
  destruct (channel_result_inv _ _ _ _ Hr)
    as (raw & p & val & c & Hraw & Hp & Hval & Hc & ->).
  cbn in Hp1, Hc1, Hval, Hraw. cbn [m_frames with_fft with_frames] in *.
  exists (decay_peak (m_frames s + 1) (scale_val raw) p),
    (if isLed i then channel_rgb (with_fft spectrum (with_frames (m_frames s + 1) s)) val
     else 0).
  split; [done|]. split; [done|].
  assert (m_frames s1 = m_frames s + 1) as Hfr by (by rewrite Hframe).
  pose proof (scale_val_range raw) as Hv.
  pose proof (decay_peak_lower (m_frames s + 1) (scale_val raw) p) as [Hlow Hnn].
  erewrite (channel_result_intro isLed _ i raw _ val); [| | done | | done].
  - cbn [m_frames with_fft with_frames with_generator]. rewrite Hfr.
    replace (m_frames s + 1 + 1) with (m_frames s + 2) by lia.
    rewrite decay_peak_idle by done.
    rewrite (channel_rgb_current (with_fft spectrum (with_frames (m_frames s + 1) s)));
      [| by rewrite Hframe ..].
    destruct (isLed i); [|done]. by rewrite Z.eqb_refl.
  - unfold channel_raw in *. cbn in *. by rewrite Hlc.
  - cbn [m_frames with_fft with_frames with_generator]. rewrite Hfr.
    replace (m_frames s + 1 + 1) with (m_frames s + 2) by lia.
    by rewrite decay_peak_idle.
Qed.

Lemma updateColors_again spectrum isLed s s1 signals1 g :
  m_isSendDataOnlyIfColorsChanged s = true ->
  Z.rem (m_frames s + 2) 5 <> 0 ->
  (m_isLiquidMode s = true -> Generator.current g = Generator.current (m_generator s)) ->
  updateColors spectrum isLed s = Some (s1, signals1) ->
  exists s2, updateColors spectrum isLed (with_generator g s1) = Some (s2, []).
Proof.
  intros Hgate Hrem Hgen Hupd.
  apply updateColors_applyFft in Hupd as (changed & Happly & _).
  destruct (applyFft_channels _ _ _ _ Happly) as (Hframe & Hlc & _).
  cbn in Hlc.
  assert (m_isSendDataOnlyIfColorsChanged s1 = true) as Hgate1 by (by rewrite Hframe).
  destruct (applyFft_is_Some isLed
              (with_fft spectrum (with_frames (m_frames s1 + 1) (with_generator g s1))))
    as [[changed2 s2] Happly2].
  { intros i Hi. cbn in Hi. rewrite Hlc in Hi.
    destruct (channel_result_again _ _ _ _ _ g i Hrem Hgen Happly Hi)
      as (p & c & _ & _ & ->).
    by eexists. }
  exists s2. apply updateColors_applyFft. exists changed2. split; [done|].
  cbn [m_isSendDataOnlyIfColorsChanged with_generator].
  rewrite Hgate1, orb_false_r.
  destruct changed2; [|done].
  destruct (applyFft_channels _ _ _ _ Happly2) as (_ & _ & _ & _ & _ & Hch).
  destruct (proj1 Hch eq_refl) as (i & r & Hi & Hr & Ht).
  cbn in Hi. rewrite Hlc in Hi.
  destruct (channel_result_again _ _ _ _ _ g i Hrem Hgen Happly Hi)
    as (p & c & _ & _ & Hr').
  rewrite Hr' in Hr. injection Hr as <-. done.
Qed.

(** C3, as the code has it. With send-only-on-change on, two calls of
    [updateColors] in a row on the same spectrum (and the same enabled
    LEDs) emit at most once when the second call is not on a frame that
    decrements the peaks and, in Liquid mode, finds the generator's
    current colour as the first call found it: the second call emits
    nothing. [updateColors] itself leaves the generator alone; [g] is the
    generator as the second call finds it, whatever its timer did in
    between. With send-only-on-change off, every call emits the colour
    sequence, and the call completes when its reads are in bounds. *)
Theorem change_gating :
  (forall spectrum isLed s s1 signals1 g,
     m_isSendDataOnlyIfColorsChanged s = true ->
     Z.rem (m_frames s + 2) 5 <> 0 ->
     (m_isLiquidMode s = true ->
      Generator.current g = Generator.current (m_generator s)) ->
     updateColors spectrum isLed s = Some (s1, signals1) ->
     m_generator s1 = m_generator s /\
     exists s2 signals2,
       updateColors spectrum isLed (with_generator g s1) = Some (s2, signals2) /\
       signals2 = [] /\ (length (signals1 ++ signals2) <= 1)%nat) /\
  (forall spectrum isLed s,
     m_isSendDataOnlyIfColorsChanged s = false ->
     (forall s' signals,
        updateColors spectrum isLed s = Some (s', signals) ->
        signals = [updateLedsColors (m_colors s')]) /\
     (sizes_agree s ->
      bucket_start (Z.of_nat (length (m_colors s))) (length (m_colors s))
        < Z.of_nat (length spectrum) ->
      is_Some (updateColors spectrum isLed s))).
Proof.
  split.
  - intros spectrum isLed s s1 signals1 g Hgate Hrem Hgen Hupd.
    split.
    { apply updateColors_applyFft in Hupd as (changed & Happly & _).
      destruct (applyFft_channels _ _ _ _ Happly) as (-> & _). done. }
    destruct (updateColors_again _ _ _ _ _ g Hgate Hrem Hgen Hupd) as [s2 Hupd2].
    exists s2, []. split_and!; try done.
    rewrite app_nil_r.
    destruct (updateColors_signals _ _ _ _ _ Hupd) as ([->| ->] & _); cbn; lia.
  - intros spectrum isLed s Hgate. split.
    + intros s' signals Hupd.
      destruct (updateColors_signals _ _ _ _ _ Hupd) as (_ & Hoff & _). by apply Hoff.
    + intros Hsz Hlen.
      destruct (applyFft_in_bounds isLed (with_fft spectrum (with_frames (m_frames s + 1) s)))
        as [[changed s'] Happly]; [done|done|].
      eexists. apply updateColors_applyFft. by exists changed.
Qed.

End Properties.

(** ** The device list *)

Section Devices.
Context {backend : Backend}.

(** C8, as the code has it. When [init()] fails, [requestDeviceList]
    clears [m_isEnabled] and returns without emitting [deviceList]; when it
    succeeds, or when the engine was initialised before, it emits the list
    and the recommended index that [populateDeviceList] makes of an empty
    list and -1. *)
Theorem requestDeviceList_outcomes (s : SoundManagerBase) :
  (m_isInited s = false -> (init s).1 = false ->
   requestDeviceList s = (with_isEnabled false (init s).2, [])) /\
  (m_isInited s = false -> (init s).1 = true ->
   requestDeviceList s =
   ((init s).2,
    [deviceList (populateDeviceList (init s).2 [] (-1)).1
                (populateDeviceList (init s).2 [] (-1)).2])) /\
  (m_isInited s = true ->
   requestDeviceList s =
   (s, [deviceList (populateDeviceList s [] (-1)).1 (populateDeviceList s [] (-1)).2])).
Proof.
  unfold requestDeviceList. repeat split.
  - intros -> Hfail. destruct (init s) as [ok s1]. cbn in Hfail. by subst.
  - intros -> Hok. destruct (init s) as [ok s1]. cbn in Hok. subst. cbn.
    by destruct (populateDeviceList s1 [] (-1)).
  - intros ->. by destruct (populateDeviceList s [] (-1)).
Qed.

End Devices.

(** * The rest of the class *)

(** ** Packed colours *)

Lemma land_shifted_low (hi lo n : Z) :
  0 <= n -> 0 <= lo < 2 ^ n -> Z.land (hi * 2 ^ n) lo = 0.
Proof.
  intros Hn Hlo. apply Z.bits_inj'. intros k Hk. rewrite Z.land_spec, Z.bits_0.
  destruct (decide (k < n)) as [Hlt|Hge].
  - rewrite Z.mul_pow2_bits_low by lia. done.
  - destruct (decide (lo = 0)) as [->|Hne]; [by rewrite Z.bits_0, andb_false_r|].
    assert (2 ^ n <= 2 ^ k) by (apply Z.pow_le_mono_r; lia).
    rewrite (Z.bits_above_log2 lo k), andb_false_r; [done|lia|].
    apply Z.log2_lt_pow2; lia.
Qed.

Lemma lor_shiftl_add (hi lo n : Z) :
  0 <= n -> 0 <= lo < 2 ^ n -> Z.lor (Z.shiftl hi n) lo = hi * 2 ^ n + lo.
Proof.
  intros Hn Hlo. rewrite Z.shiftl_mul_pow2 by done.
  rewrite <- Z.lxor_lor by (by apply land_shifted_low).
  symmetry. apply Z.add_nocarry_lxor. by apply land_shifted_low.
Qed.

(** [qRgb] as a sum. *)
Lemma qRgb_sum (r g b : Z) :
  qRgb r g b = 4278190080 + 65536 * (r mod 256) + 256 * (g mod 256) + b mod 256.
Proof.
  unfold qRgb.
  change 255 with (Z.ones 8) at 2 3 4. rewrite !Z.land_ones by lia.
  change (2 ^ 8) with 256.
  pose proof (Z.mod_pos_bound r 256 ltac:(lia)).
  pose proof (Z.mod_pos_bound g 256 ltac:(lia)).
  pose proof (Z.mod_pos_bound b 256 ltac:(lia)).
  rewrite (lor_shiftl_add (g mod 256) (b mod 256) 8) by lia.
  rewrite (lor_shiftl_add (r mod 256) _ 16) by lia.
  rewrite (lor_shiftl_add 255 _ 24) by lia. lia.
Qed.

Lemma qRgb_opaque (r g b : Z) : opaque (qRgb r g b).
Proof.
  unfold opaque. rewrite qRgb_sum.
  pose proof (Z.mod_pos_bound r 256 ltac:(lia)).
  pose proof (Z.mod_pos_bound g 256 ltac:(lia)).
  pose proof (Z.mod_pos_bound b 256 ltac:(lia)). lia.
Qed.

(** ** The assertion on the FFT size *)

Lemma power_of_two_land (k : Z) : 0 <= k -> Z.land (2 ^ k) (2 ^ k - 1) = 0.
Proof.
  intros Hk. replace (2 ^ k - 1) with (Z.ones k) by (rewrite Z.ones_equiv; lia).
  rewrite Z.land_ones by done. apply Z_mod_same_full.
Qed.

(** The [static_assert] of [fftSize()] holds, and its condition accepts
    exactly the powers of two. *)
Theorem fftSize_power_of_two :
  power_of_two_check fftSize = true /\
  (forall size, 0 <= size ->
     (power_of_two_check size = true <-> exists k, 0 <= k /\ size = 2 ^ k)).
Proof.
  split; [done|]. intros size Hsize. unfold power_of_two_check.
  rewrite andb_true_iff, negb_true_iff, !Z.eqb_neq, Z.eqb_eq. split.
  - intros [Hne Hland].
    exists (Z.log2 size). split; [apply Z.log2_nonneg|].
    destruct (Z.log2_spec size ltac:(lia)) as [Hlo Hhi].
    destruct (decide (size = 2 ^ Z.log2 size)) as [|Hneq]; [done|].
    assert (Z.testbit (Z.land size (size - 1)) (Z.log2 size) = true) as Hbit.
    { pose proof (Z.log2_nonneg size).
      pose proof (Z.pow_pos_nonneg 2 (Z.log2 size) ltac:(lia) ltac:(lia)).
      assert (Z.log2 (size - 1) = Z.log2 size) as Hl.
      { apply Z.log2_unique; [done|]. rewrite <- Z.add_1_r in Hhi. lia. }
      rewrite Z.land_spec, Z.bit_log2 by lia.
      rewrite <- Hl, Z.bit_log2 by lia. done. }
    rewrite Hland, Z.bits_0 in Hbit. done.
  - intros (k & Hk & ->). split.
    + pose proof (Z.pow_pos_nonneg 2 k). lia.
    + by apply power_of_two_land.
Qed.

Section Coverage.
Context {platform : Platform}.

(** ** One call of [updateColors], channel by channel *)

Lemma decay_peak_max (frames val p : Z) :
  decay_peak frames val p = Z.max val (Z.max 0 (p - decrement frames)).
Proof. unfold decay_peak, decrement. repeat case_match; lia. Qed.

(** What one call stores for channel [i]. *)
Lemma updateColors_channel spectrum isLed s s' signals (i : nat) :
  updateColors spectrum isLed s = Some (s', signals) ->
  (i < length (m_colors s))%nat ->
  exists raw p val c,
    channel_raw (with_fft spectrum (with_frames (m_frames s + 1) s)) i = Some raw /\
    m_peaks s !! i = Some p /\ m_colors s !! i = Some c /\
    renormalize (scale_val raw) (decay_peak (m_frames s + 1) (scale_val raw) p) = Some val /\
    m_peaks s' !! i = Some (decay_peak (m_frames s + 1) (scale_val raw) p) /\
    m_colors s' !! i = Some (if isLed i then channel_rgb s val else 0).
Proof.
  intros Hupd Hi.
  apply updateColors_applyFft in Hupd as (changed & Happly & _).
  destruct (applyFft_channels _ _ _ _ Happly) as (_ & _ & _ & Hchan & _).
  destruct (Hchan i Hi) as (r & Hr & Hp' & Hc').
  destruct (channel_result_inv _ _ _ _ Hr)
    as (raw & p & val & c & Hraw & Hp & Hval & Hc & ->).
  exists raw, p, val, c. cbn in *. split_and!; done.
Qed.

Lemma updateColors_fields spectrum isLed s s' signals :
  updateColors spectrum isLed s = Some (s', signals) ->
  s' = with_colors (m_colors s') (with_peaks (m_peaks s')
         (with_fft spectrum (with_frames (m_frames s + 1) s))) /\
  length (m_colors s') = length (m_colors s) /\
  length (m_peaks s') = length (m_peaks s) /\
  (forall i : nat, (length (m_colors s) <= i)%nat -> m_peaks s' !! i = m_peaks s !! i).
Proof.
  intros Hupd. apply updateColors_applyFft in Hupd as (changed & Happly & _).
  destruct (applyFft_channels _ _ _ _ Happly) as (Hframe & Hlc & Hlp & _ & Hrest & _). done.
Qed.

(** [updateColors] counts the frame, stores the spectrum and rewrites the
    peaks and colours; it changes nothing else, keeps the channel count,
    and what it emits is the stored colour sequence. *)
Theorem updateColors_changes_only spectrum isLed s s' signals :
  updateColors spectrum isLed s = Some (s', signals) ->
  m_frames s' = m_frames s + 1 /\ m_fft s' = spectrum /\
  length (m_colors s') = length (m_colors s) /\
  length (m_peaks s') = length (m_peaks s) /\
  m_isInited s' = m_isInited s /\ m_isEnabled s' = m_isEnabled s /\
  m_device s' = m_device s /\
  m_minColor s' = m_minColor s /\ m_maxColor s' = m_maxColor s /\
  m_isLiquidMode s' = m_isLiquidMode s /\
  m_isSendDataOnlyIfColorsChanged s' = m_isSendDataOnlyIfColorsChanged s /\
  m_generator s' = m_generator s /\
  Forall (fun signal => signal = updateLedsColors (m_colors s')) signals.
Proof.
  intros Hupd.
  destruct (updateColors_signals _ _ _ _ _ Hupd) as (Hsig & _).
  destruct (updateColors_fields _ _ _ _ _ Hupd) as (Hframe & Hlc & Hlp & _).
  split_and!; try done; try (by rewrite Hframe).
  destruct Hsig as [-> | ->]; repeat constructor.
Qed.

(** The new peak of a channel is the larger of its value and of its old
    peak, which every fifth frame lowers by one but not below 0: a peak
    drops by at most one per call and never under the current value. *)
Theorem peak_update spectrum isLed s s' signals (i : nat) :
  updateColors spectrum isLed s = Some (s', signals) ->
  (i < length (m_colors s))%nat ->
  exists raw p p',
    channel_raw (with_fft spectrum (with_frames (m_frames s + 1) s)) i = Some raw /\
    m_peaks s !! i = Some p /\ m_peaks s' !! i = Some p' /\
    p' = Z.max (scale_val raw) (Z.max 0 (p - decrement (m_frames s + 1))) /\
    scale_val raw <= p' /\ (0 <= p -> p - 1 <= p' <= Z.max (scale_val raw) p).
Proof.
  intros Hupd Hi.
  destruct (updateColors_channel _ _ _ _ _ i Hupd Hi)
    as (raw & p & val & c & Hraw & Hp & _ & _ & Hp' & _).
  rewrite decay_peak_max in Hp'.
  exists raw, p, (Z.max (scale_val raw) (Z.max 0 (p - decrement (m_frames s + 1)))).
  split_and!; try done; unfold decrement; destruct (Z.rem _ 5 =? 0); lia.
Qed.

(** The renormalisation of lines 205 and 206 never lowers a value while the
    peak is at most [specHeight], and leaves alone a value within 5 of the
    peak. *)
Theorem renormalize_raises (val p out : Z) :
  0 <= val -> p <= specHeight -> renormalize val p = Some out ->
  val <= out /\ (p - 5 <= val -> out = val).
Proof.
  unfold renormalize, specHeight. intros Hval Hp Hout.
  destruct (val <? p - 5) eqn:Hlt.
  - apply Z.ltb_lt in Hlt. destruct (p =? 0); [done|]. injection Hout as <-.
    split; [|lia]. rewrite Z.quot_div_nonneg by lia.
    apply Z.div_le_lower_bound; nia.
  - injection Hout as <-. lia.
Qed.

(** A rising update: when a channel's value reaches its old peak, the peak
    becomes the value and the value is mapped to a colour as it is. *)
Theorem rising_update spectrum isLed s s' signals (i : nat) raw p :
  updateColors spectrum isLed s = Some (s', signals) ->
  channel_raw (with_fft spectrum (with_frames (m_frames s + 1) s)) i = Some raw ->
  m_peaks s !! i = Some p -> (i < length (m_colors s))%nat ->
  p <= scale_val raw ->
  m_peaks s' !! i = Some (scale_val raw) /\
  m_colors s' !! i = Some (if isLed i then channel_rgb s (scale_val raw) else 0).
Proof.
  intros Hupd Hraw Hp Hi Hle.
  destruct (updateColors_channel _ _ _ _ _ i Hupd Hi)
    as (raw' & p0 & val & c & Hraw' & Hp0 & _ & Hval & Hp' & Hc').
  assert (raw' = raw) as -> by congruence. assert (p0 = p) as -> by congruence.
  pose proof (scale_val_range raw) as Hv.
  assert (decay_peak (m_frames s + 1) (scale_val raw) p = scale_val raw) as Hdp
    by (rewrite decay_peak_max; unfold decrement; destruct (Z.rem _ 5 =? 0); lia).
  rewrite Hdp in Hval, Hp'.
  unfold renormalize in Hval.
  replace (scale_val raw <? scale_val raw - 5) with false in Hval
    by (symmetry; apply Z.ltb_ge; lia).
  injection Hval as <-. done.
Qed.

(** ** Stored colours *)

Lemma channel_rgb_opaque (s : SoundManagerBase) (val : Z) : opaque (channel_rgb s val).
Proof. unfold channel_rgb. apply qRgb_opaque. Qed.

Lemma blend_range (from to val : Z) : 0 <= blend from to val <= 255.
Proof. unfold blend, qcolor_component. lia. Qed.

(** The colour of an enabled channel is the packed triple of its blended
    components, so two colours are equal only if all three components
    are: the comparison of line 215 misses no change of a component. *)
Theorem channel_rgb_components (s1 s2 : SoundManagerBase) (val1 val2 : Z) :
  channel_rgb s1 val1 = channel_rgb s2 val2 <->
  (let from1 := if m_isLiquidMode s1 then mkQColor 0 0 0 else m_minColor s1 in
   let to1 := if m_isLiquidMode s1 then Generator.current (m_generator s1) else m_maxColor s1 in
   let from2 := if m_isLiquidMode s2 then mkQColor 0 0 0 else m_minColor s2 in
   let to2 := if m_isLiquidMode s2 then Generator.current (m_generator s2) else m_maxColor s2 in
   blend (red from1) (red to1) val1 = blend (red from2) (red to2) val2 /\
   blend (green from1) (green to1) val1 = blend (green from2) (green to2) val2 /\
   blend (blue from1) (blue to1) val1 = blend (blue from2) (blue to2) val2).
Proof.
  unfold channel_rgb. cbv zeta. rewrite !qRgb_sum.
  set (from1 := if m_isLiquidMode s1 then _ else _).
  set (to1 := if m_isLiquidMode s1 then _ else _).
  set (from2 := if m_isLiquidMode s2 then _ else _).
  set (to2 := if m_isLiquidMode s2 then _ else _).
  pose proof (blend_range (red from1) (red to1) val1).
  pose proof (blend_range (green from1) (green to1) val1).
  pose proof (blend_range (blue from1) (blue to1) val1).
  pose proof (blend_range (red from2) (red to2) val2).
  pose proof (blend_range (green from2) (green to2) val2).
  pose proof (blend_range (blue from2) (blue to2) val2).
  rewrite !Z.mod_small by lia. split; [lia|]. intros (-> & -> & ->). done.
Qed.

(** After a call a channel holds 0 exactly when its LED is disabled, and
    an opaque [0xFFrrggbb] word when it is enabled. *)
Theorem stored_colors spectrum isLed s s' signals (i : nat) c :
  updateColors spectrum isLed s = Some (s', signals) ->
  m_colors s' !! i = Some c ->
  (isLed i = false /\ c = 0) \/ (isLed i = true /\ opaque c).
Proof.
  intros Hupd Hc.
  assert (i < length (m_colors s))%nat as Hi.
  { apply lookup_lt_Some in Hc.
    destruct (updateColors_fields _ _ _ _ _ Hupd) as (_ & Hlc & _). lia. }
  destruct (updateColors_channel _ _ _ _ _ i Hupd Hi)
    as (raw & p & val & c0 & _ & _ & _ & _ & _ & Hc').
  rewrite Hc' in Hc. injection Hc as <-.
  destruct (isLed i); [right | left]; split; try done. apply channel_rgb_opaque.
Qed.

(** An enabled channel whose stored colour is 0, as [initColors] leaves it
    or as the call before left it while its LED was disabled, makes the
    call emit, with send-only-on-change on or off. *)
Theorem zero_colour_forces_emission spectrum isLed s s' signals (i : nat) :
  updateColors spectrum isLed s = Some (s', signals) ->
  m_colors s !! i = Some 0 -> isLed i = true ->
  signals = [updateLedsColors (m_colors s')].
Proof.
  intros Hupd Hc Hled.
  destruct (updateColors_signals _ _ _ _ _ Hupd) as ([-> | ->] & Hoff & Hon); [|done].
  destruct (m_isSendDataOnlyIfColorsChanged s) eqn:Hgate; [|by apply Hoff].
  assert (i < length (m_colors s))%nat as Hi by (by apply lookup_lt_Some in Hc).
  destruct (updateColors_channel _ _ _ _ _ i Hupd Hi)
    as (raw & p & val & c0 & _ & _ & _ & _ & _ & Hc').
  rewrite Hled in Hc'.
  pose proof (proj1 (Hon eq_refl) eq_refl i 0 _ Hled Hc Hc') as Hzero.
  pose proof (channel_rgb_opaque s val) as Hop. unfold opaque in Hop. lia.
Qed.

(** After [settingsProfileChanged] the colours and peaks are zeros, one per
    LED of the settings. The next [updateColors] then maps every channel's
    value directly (its peak becomes the value), and it emits unless
    send-only-on-change is on and every LED is disabled. *)
Theorem update_after_settingsProfileChanged settings spectrum isLed s s' signals :
  updateColors spectrum isLed (settingsProfileChanged settings s) = Some (s', signals) ->
  length (m_colors s') = Z.to_nat (getNumberOfLeds settings) /\
  (forall i : nat, (i < Z.to_nat (getNumberOfLeds settings))%nat ->
     exists raw,
       channel_raw (with_fft spectrum
         (with_frames (m_frames s + 1) (settingsProfileChanged settings s))) i = Some raw /\
       m_peaks s' !! i = Some (scale_val raw)) /\
  (signals = [] <->
   isSendDataOnlyIfColorsChanges settings = true /\
   forall i : nat, (i < Z.to_nat (getNumberOfLeds settings))%nat -> isLed i = false).
Proof.
  intros Hupd.
  set (s0 := settingsProfileChanged settings s) in *.
  assert (m_colors s0 = replicate (Z.to_nat (getNumberOfLeds settings)) 0) as Hcs by done.
  assert (m_peaks s0 = replicate (Z.to_nat (getNumberOfLeds settings)) 0) as Hps by done.
  assert (length (m_colors s0) = Z.to_nat (getNumberOfLeds settings)) as Hlen
    by (by rewrite Hcs, length_replicate).
  destruct (updateColors_fields _ _ _ _ _ Hupd) as (_ & Hlc & _).
  split_and!.
  - congruence.
  - intros i Hi. rewrite <- Hlen in Hi.
    destruct (updateColors_channel _ _ _ _ _ i Hupd Hi)
      as (raw & p & val & c0 & Hraw & Hp & _ & _ & Hp' & _).
    exists raw. split; [done|].
    rewrite Hps in Hp. apply lookup_replicate in Hp as [-> _].
    rewrite Hp'. f_equal. rewrite decay_peak_max.
    pose proof (scale_val_range raw). unfold decrement.
    destruct (Z.rem _ 5 =? 0); lia.
  - destruct (updateColors_signals _ _ _ _ _ Hupd) as (Hsig & Hoff & Hon).
    change (m_isSendDataOnlyIfColorsChanged s0) with (isSendDataOnlyIfColorsChanges settings)
      in Hoff, Hon.
    split.
    + intros ->. destruct (isSendDataOnlyIfColorsChanges settings) eqn:Hgate.
      * split; [done|]. intros i Hi.
        destruct (isLed i) eqn:Hled; [|done].
        assert (m_colors s0 !! i = Some 0) as Hc
          by (rewrite Hcs; by apply lookup_replicate_2).
        rewrite <- Hlen in Hi.
        destruct (updateColors_channel _ _ _ _ _ i Hupd Hi)
          as (raw & p & val & c0 & _ & _ & _ & _ & _ & Hc').
        rewrite Hled in Hc'.
        pose proof (proj1 (Hon eq_refl) eq_refl i 0 _ Hled Hc Hc') as Hzero.
        pose proof (channel_rgb_opaque s0 val) as Hop. unfold opaque in Hop. lia.
      * by specialize (Hoff eq_refl).
    + intros [Hgate Hall]. apply (Hon Hgate). intros i c c' Hled Hc _.
      apply lookup_lt_Some in Hc. rewrite Hlen in Hc. rewrite Hall in Hled by done. done.
Qed.

(** ** The ends of the gradient *)

Lemma endpoints_all : forallb endpoints_ok (seqZ 0 256) = true.
Proof. vm_cast_no_check (eq_refl true). Qed.

Lemma blend_endpoints (from to : Z) :
  0 <= from <= 255 -> 0 <= to <= 255 ->
  blend from to 0 = from /\ blend from to specHeight = to.
Proof.
  intros Hfrom Hto.
  pose proof endpoints_all as Hall. rewrite forallb_forall in Hall.
  specialize (Hall from). unfold endpoints_ok in Hall.
  rewrite forallb_forall in Hall.
  assert (In from (seqZ 0 256)) as Hin1 by (apply list_elem_of_In, elem_of_seqZ; lia).
  assert (In to (seqZ 0 256)) as Hin2 by (apply list_elem_of_In, elem_of_seqZ; lia).
  specialize (Hall Hin1 to Hin2).
  apply andb_true_iff in Hall as [H0 H1]. by rewrite !Z.eqb_eq in *.
Qed.

(** With valid colours, intensity 0 shows the "from" colour and intensity
    [specHeight] the "to" colour exactly: [m_minColor] and [m_maxColor] in
    Gradient mode, black and the generator's colour in Liquid mode. *)
Theorem gradient_endpoints (s : SoundManagerBase) :
  (m_isLiquidMode s = false -> valid_color (m_minColor s) -> valid_color (m_maxColor s) ->
   channel_rgb s 0 = rgb (m_minColor s) /\ channel_rgb s specHeight = rgb (m_maxColor s)) /\
  (m_isLiquidMode s = true -> valid_color (Generator.current (m_generator s)) ->
   channel_rgb s 0 = qRgb 0 0 0 /\
   channel_rgb s specHeight = rgb (Generator.current (m_generator s))).
Proof.
  unfold channel_rgb, rgb, valid_color. split.
  - intros -> (Hr & Hg & Hb) (Hr' & Hg' & Hb').
    destruct (blend_endpoints _ _ Hr Hr') as [-> ->].
    destruct (blend_endpoints _ _ Hg Hg') as [-> ->].
    destruct (blend_endpoints _ _ Hb Hb') as [-> ->]. done.
  - intros -> (Hr' & Hg' & Hb'). cbn [red green blue].
    destruct (blend_endpoints 0 _ ltac:(lia) Hr') as [-> ->].
    destruct (blend_endpoints 0 _ ltac:(lia) Hg') as [-> ->].
    destruct (blend_endpoints 0 _ ltac:(lia) Hb') as [-> ->]. done.
Qed.

(** ** Silence *)

Lemma scale_val_zero : scale_val (S754_zero false) = 0.
Proof. vm_compute. reflexivity. Qed.

Lemma bucket_scan_silent (fft : list spec_float) (n : nat) :
  forall b0 : Z,
    (forall b, b0 <= b < b0 + Z.of_nat n ->
       exists x, fft !! Z.to_nat (1 + b) = Some x /\ F32.ltb (S754_zero false) x = false) ->
    bucket_scan fft b0 n (S754_zero false) = Some (S754_zero false).
Proof.
  induction n as [|n IH]; intros b0 Hall; [done|].
  cbn [bucket_scan].
  destruct (Hall b0 ltac:(lia)) as (x & Hx & Hlt).
  rewrite Hx. cbn. rewrite Hlt.
  apply IH. intros b Hb. apply Hall. lia.
Qed.

Lemma channel_raw_silent (s : SoundManagerBase) (i : nat) :
  silent (length (m_colors s)) (m_fft s) -> (i < length (m_colors s))%nat ->
  channel_raw s i = Some (S754_zero false).
Proof.
  intros Hsil Hi. unfold channel_raw, bucket_peak.
  pose proof (bucket_start_step (Z.of_nat (length (m_colors s))) i).
  pose proof (bucket_start_nonneg (Z.of_nat (length (m_colors s))) i).
  pose proof (bucket_start_mono (Z.of_nat (length (m_colors s))) (S i)
                (length (m_colors s)) ltac:(lia)).
  apply bucket_scan_silent. intros b Hb. apply Hsil. lia.
Qed.

(** One call on a spectrum without a positive bin. *)
Lemma updateColors_silent spectrum isLed s s' signals (i : nat) p :
  updateColors spectrum isLed s = Some (s', signals) ->
  silent (length (m_colors s)) spectrum ->
  (i < length (m_colors s))%nat -> m_peaks s !! i = Some p ->
  m_peaks s' !! i = Some (Z.max 0 (p - decrement (m_frames s + 1))) /\
  m_colors s' !! i = Some (if isLed i then channel_rgb s 0 else 0).
Proof.
  intros Hupd Hsil Hi Hp.
  destruct (updateColors_channel _ _ _ _ _ i Hupd Hi)
    as (raw & p0 & val & c & Hraw & Hp0 & _ & Hval & Hp' & Hc').
  rewrite (channel_raw_silent _ i) in Hraw by done. injection Hraw as <-.
  assert (p0 = p) as -> by congruence.
  rewrite scale_val_zero, decay_peak_max in *.
  assert (val = 0) as ->.
  { unfold renormalize in Hval.
    destruct (0 <? _); [destruct (_ =? 0); [done|]|]; by injection Hval as <-. }
  split; [|done]. rewrite Hp'. f_equal.
  unfold decrement. destruct (Z.rem _ 5 =? 0); lia.
Qed.

Lemma decrement_div (frames : Z) :
  0 <= frames -> decrement (frames + 1) = (frames + 1) / 5 - frames / 5.
Proof.
  intros Hf. unfold decrement. rewrite Z.rem_mod_nonneg by lia.
  destruct (Z.eqb_spec ((frames + 1) mod 5) 0); Z.to_euclidean_division_equations; lia.
Qed.

(** Under a spectrum without a positive bin the peaks only decay, by one
    on every frame whose number is a multiple of 5 and not below 0: after
    [n] calls a peak [p >= 0] is [max 0 (p - k)], [k] counting those
    frames, and every enabled channel shows the "from" end of the
    gradient. *)
Theorem silence_decay spectrum isLed (n : nat) :
  forall s s',
    updates n spectrum isLed s = Some s' ->
    silent (length (m_colors s)) spectrum -> 0 <= m_frames s ->
    m_frames s' = m_frames s + Z.of_nat n /\
    forall (i : nat) p, (i < length (m_colors s))%nat -> m_peaks s !! i = Some p ->
      0 <= p ->
      m_peaks s' !! i
        = Some (Z.max 0 (p - ((m_frames s + Z.of_nat n) / 5 - m_frames s / 5))) /\
      ((1 <= n)%nat -> m_colors s' !! i = Some (if isLed i then channel_rgb s 0 else 0)).
Proof.
  induction n as [|n IH]; intros s s' Hrun Hsil Hf.
  - cbn in Hrun. injection Hrun as <-. split; [lia|]. intros i p Hi Hp Hp0.
    split; [|lia]. rewrite Z.add_0_r, Z.sub_diag, Hp. f_equal. lia.
  - cbn [updates] in Hrun.
    destruct (updateColors spectrum isLed s) as [[s1 signals]|] eqn:Hupd; [|done].
    cbn in Hrun.
    destruct (updateColors_fields _ _ _ _ _ Hupd) as (Hframe & Hlc & _).
    assert (m_frames s1 = m_frames s + 1) as Hf1 by (by rewrite Hframe).
    destruct (IH s1 s' Hrun) as [Hfn Hchan]; [by rewrite Hlc|lia|].
    split; [lia|]. intros i p Hi Hp Hp0.
    destruct (updateColors_silent _ _ _ _ _ i p Hupd Hsil Hi Hp) as [Hp1 Hc1].
    destruct (Hchan i _ ltac:(lia) Hp1 ltac:(lia)) as [Hpn Hcn].
    split.
    + rewrite Hpn. f_equal. rewrite Hf1, (decrement_div (m_frames s)) by done.
      replace (m_frames s + 1 + Z.of_nat n) with (m_frames s + Z.of_nat (S n)) by lia.
      pose proof (Z.div_le_mono (m_frames s + 1) (m_frames s + Z.of_nat (S n)) 5
                    ltac:(lia) ltac:(lia)).
      pose proof (Z.div_le_mono (m_frames s) (m_frames s + 1) 5 ltac:(lia) ltac:(lia)).
      lia.
    + intros _. destruct n as [|n].
      * cbn in Hrun. injection Hrun as <-. done.
      * rewrite (Hcn ltac:(lia)). 
        by rewrite (channel_rgb_frame s s1) by (by rewrite Hframe).
Qed.

(** ** Reads outside the spectrum *)

(** With at least one channel and a spectrum buffer of no more entries
    than there are channels, the loop reads [m_fft] past its end: every
    channel takes at least one bin and bin 0 is skipped. For the 1024
    entries of [fftSize()] this happens from 1024 LEDs on. *)
Theorem spectrum_overrun isLed s :
  (1 <= length (m_colors s))%nat ->
  ((length (m_fft s) <= length (m_colors s))%nat -> applyFft isLed s = None) /\
  (forall spectrum, (length spectrum <= length (m_colors s))%nat ->
     updateColors spectrum isLed s = None).
Proof.
  intros HN.
  assert (forall s0, (1 <= length (m_colors s0))%nat ->
                     (length (m_fft s0) <= length (m_colors s0))%nat ->
                     applyFft isLed s0 = None) as Hover.
  { intros s0 HN0 Hlen.
    destruct (applyFft isLed s0) as [[changed s']|] eqn:Happly; [|done]. exfalso.
    destruct (applyFft_channels _ _ _ _ Happly) as (_ & _ & _ & Hchan & _).
    destruct (Hchan (length (m_colors s0) - 1)%nat ltac:(lia)) as (r & Hr & _).
    destruct (channel_result_inv _ _ _ _ Hr) as (raw & _ & _ & _ & Hraw & _).
    destruct (channel_raw_max _ _ _ Hraw) as (_ & Hall & _).
    set (size := Z.of_nat (length (m_colors s0))) in *.
    pose proof (bucket_start_step size (length (m_colors s0) - 1)) as Hstep.
    pose proof (bucket_start_nonneg size (length (m_colors s0))) as Hnn.
    replace (S (length (m_colors s0) - 1)) with (length (m_colors s0)) in * by lia.
    destruct (Hall (bucket_start size (length (m_colors s0)) - 1)) as (x & Hx & _).
    { unfold in_bucket.
      replace (S (length (m_colors s0) - 1)) with (length (m_colors s0)) by lia. lia. }
    apply lookup_lt_Some in Hx. lia. }
  split; [by apply Hover|].
  intros spectrum Hlen. unfold updateColors.
  rewrite Hover; [done| |]; cbn; lia.
Qed.

(** ** Mode switches and the peaks *)

Lemma updateColors_peak_floor spectrum isLed s s' signals (i : nat) p :
  updateColors spectrum isLed s = Some (s', signals) ->
  m_peaks s !! i = Some p -> 0 <= p ->
  exists p', m_peaks s' !! i = Some p' /\ p - 1 <= p'.
Proof.
  intros Hupd Hp Hp0.
  destruct (decide (i < length (m_colors s))%nat) as [Hi|Hi].
  - destruct (updateColors_channel _ _ _ _ _ i Hupd Hi)
      as (raw & p0 & val & c & _ & Hp0' & _ & _ & Hp' & _).
    assert (p0 = p) as -> by congruence.
    eexists. split; [done|]. rewrite decay_peak_max. unfold decrement.
    destruct (Z.rem _ 5 =? 0); lia.
  - destruct (updateColors_fields _ _ _ _ _ Hupd) as (_ & _ & _ & Hrest).
    exists p. rewrite Hrest by lia. split; [done | lia].
Qed.

(** [setLiquidMode] never resets the peaks: it sets the mode flag, runs
    the generator exactly when the mode is Liquid and the engine enabled,
    and lowers no peak by more than the one decrement of the [updateColors]
    it may call. Switching to Liquid, or switching a disabled engine,
    emits nothing and leaves peaks, colours and the frame counter as they
    were. *)
Theorem setLiquidMode_keeps_peaks spectrum isLed state s s' signals :
  setLiquidMode spectrum isLed state s = Some (s', signals) ->
  m_isLiquidMode s' = state /\
  gen_running (m_generator s') = state && m_isEnabled s /\
  length (m_peaks s') = length (m_peaks s) /\
  (forall (i : nat) p, m_peaks s !! i = Some p -> 0 <= p ->
     exists p', m_peaks s' !! i = Some p' /\ p - 1 <= p') /\
  (state = true \/ m_isEnabled s = false ->
   signals = [] /\ m_peaks s' = m_peaks s /\ m_colors s' = m_colors s /\
   m_frames s' = m_frames s).
Proof.
  unfold setLiquidMode.
  cbn [m_isLiquidMode m_isEnabled m_generator with_isLiquidMode with_generator].
  intros Hset.
  destruct state, (m_isEnabled s) eqn:Hen; cbn [andb] in Hset.
  - injection Hset as <- <-. cbn. split_and!; try done.
    intros i p Hp Hp0. exists p. split; [done | lia].
  - injection Hset as <- <-. cbn. split_and!; try done.
    intros i p Hp Hp0. exists p. split; [done | lia].
  - destruct (updateColors_fields _ _ _ _ _ Hset) as (Hframe & _ & Hlp & _).
    split_and!; try done; try (by rewrite Hframe).
    + intros i p Hp Hp0. by apply (updateColors_peak_floor _ _ _ _ _ i p Hset).
    + intros [|]; done.
  - injection Hset as <- <-. cbn. split_and!; try done.
    intros i p Hp Hp0. exists p. split; [done | lia].
Qed.

(** ** The first call after the channels were zeroed *)

Lemma update_from_zeros spectrum isLed s0 s' signals (n : nat) :
  m_colors s0 = replicate n 0 -> m_peaks s0 = replicate n 0 ->
  updateColors spectrum isLed s0 = Some (s', signals) ->
  (forall i : nat, (i < n)%nat ->
     exists raw,
       channel_raw (with_fft spectrum (with_frames (m_frames s0 + 1) s0)) i = Some raw /\
       m_peaks s' !! i = Some (scale_val raw) /\
       m_colors s' !! i = Some (if isLed i then channel_rgb s0 (scale_val raw) else 0)) /\
  (signals = [] <->
   m_isSendDataOnlyIfColorsChanged s0 = true /\
   forall i : nat, (i < n)%nat -> isLed i = false).
Proof.
  intros Hcs Hps Hupd.
  assert (length (m_colors s0) = n) as Hlen by (by rewrite Hcs, length_replicate).
  assert (forall i : nat, (i < n)%nat ->
            exists raw,
              channel_raw (with_fft spectrum (with_frames (m_frames s0 + 1) s0)) i = Some raw /\
              m_peaks s' !! i = Some (scale_val raw) /\
              m_colors s' !! i = Some (if isLed i then channel_rgb s0 (scale_val raw) else 0))
    as Hchan.
  { intros i Hi. rewrite <- Hlen in Hi.
    destruct (updateColors_channel _ _ _ _ _ i Hupd Hi)
      as (raw & p & val & c0 & Hraw & Hp & _ & Hval & Hp' & Hc').
    rewrite Hps in Hp. apply lookup_replicate in Hp as [-> _].
    pose proof (scale_val_range raw).
    assert (decay_peak (m_frames s0 + 1) (scale_val raw) 0 = scale_val raw) as Hdp
      by (rewrite decay_peak_max; unfold decrement; destruct (Z.rem _ 5 =? 0); lia).
    rewrite Hdp in Hval, Hp'. unfold renormalize in Hval.
    replace (scale_val raw <? scale_val raw - 5) with false in Hval
      by (symmetry; apply Z.ltb_ge; lia).
    injection Hval as <-. by exists raw. }
  split; [done|].
  destruct (updateColors_signals _ _ _ _ _ Hupd) as (Hsig & Hoff & Hon).
  split.
  - intros ->. destruct (m_isSendDataOnlyIfColorsChanged s0) eqn:Hgate.
    + split; [done|]. intros i Hi.
      destruct (isLed i) eqn:Hled; [|done].
      assert (m_colors s0 !! i = Some 0) as Hc by (rewrite Hcs; by apply lookup_replicate_2).
      destruct (Hchan i Hi) as (raw & _ & _ & Hc'). rewrite Hled in Hc'.
      pose proof (proj1 (Hon eq_refl) eq_refl i 0 _ Hled Hc Hc') as Hzero.
      pose proof (channel_rgb_opaque s0 (scale_val raw)) as Hop. unfold opaque in Hop. lia.
    + by specialize (Hoff eq_refl).
  - intros [Hgate Hall]. apply (Hon Hgate). intros i c c' Hled Hc _.
    apply lookup_lt_Some in Hc. rewrite Hlen in Hc. rewrite Hall in Hled by done. done.
Qed.

(** After [setNumberOfLeds] or [reset] no old peak or colour is left: the
    next [updateColors] makes every channel's peak its current value, maps
    that value to the colour as it is, and emits unless send-only-on-change
    (which both calls leave as it was, like the frame counter) is on and
    every LED is disabled. *)
Theorem update_after_zeroing spectrum isLed s s0 s' signals :
  (exists numberOfLeds, s0 = setNumberOfLeds numberOfLeds s) \/ s0 = reset s ->
  updateColors spectrum isLed s0 = Some (s', signals) ->
  (forall i : nat, (i < length (m_colors s0))%nat ->
     exists raw,
       channel_raw (with_fft spectrum (with_frames (m_frames s + 1) s0)) i = Some raw /\
       m_peaks s' !! i = Some (scale_val raw) /\
       m_colors s' !! i = Some (if isLed i then channel_rgb s0 (scale_val raw) else 0)) /\
  (signals = [] <->
   m_isSendDataOnlyIfColorsChanged s = true /\
   forall i : nat, (i < length (m_colors s0))%nat -> isLed i = false).
Proof.
  intros Hs0 Hupd.
  assert (exists n : nat, m_colors s0 = replicate n 0 /\ m_peaks s0 = replicate n 0 /\
            m_frames s0 = m_frames s /\
            m_isSendDataOnlyIfColorsChanged s0 = m_isSendDataOnlyIfColorsChanged s)
    as (n & Hcs & Hps & Hf & Hg).
  { destruct Hs0 as [[numberOfLeds ->] | ->].
    - by exists (Z.to_nat numberOfLeds).
    - exists (length (m_colors s)). unfold reset, initColors. cbn. by rewrite Nat2Z.id. }
  destruct (update_from_zeros _ _ _ _ _ n Hcs Hps Hupd) as [Hchan Hsig].
  rewrite Hcs, length_replicate. by rewrite <- Hf, <- Hg.
Qed.

End Coverage.

(** ** The capture device *)

Section Device.
Context {capture : Capture}.

(** [setDevice] stores the device and keeps the engine enabled or
    disabled as it was, for a backend whose [start] records its argument
    in [m_isEnabled] and leaves [m_device] alone: the flag is read before
    [start(false)] clears it, so an enabled engine is restarted. A
    disabled engine is not started; only [m_device] changes. *)
Theorem setDevice_keeps_enabled (value : Z) (s : SoundManagerBase) :
  (forall isEnabled s0, m_isEnabled (start isEnabled s0) = isEnabled) ->
  (forall isEnabled s0, m_device (start isEnabled s0) = m_device s0) ->
  m_isEnabled (setDevice value s) = m_isEnabled s /\
  m_device (setDevice value s) = value /\
  (m_isEnabled s = true -> setDevice value s = start true (with_device value (start false s))) /\
  (m_isEnabled s = false -> setDevice value s = with_device value s).
Proof.
  intros Hflag Hdev. unfold setDevice.
  destruct (m_isEnabled s) eqn:Hen; split_and!; try done.
  all: by rewrite ?Hflag, ?Hdev.
Qed.

End Device.

(** * The pipeline on sample data *)

(** ** Buckets *)

(** With two channels the ranges are bins 1 and 2 to 512: bin 601 lies in
    [1, fftSize) and in no range. *)
Lemma bucket_ranges_stop_at_512 :
  bucket_ranges (platform := x86_64) 2 2 = [(0, 1); (1, 512)] /\
  1 <= 1 + 600 < fftSize /\
  ~ (exists k : nat, (k < 2)%nat /\ in_bucket (platform := x86_64) 2 k 600).
Proof.
  split; [by vm_compute|]. split; [by vm_compute|].
  assert (bucket_start (platform := x86_64) 2 1 = 1) as E1 by (by vm_compute).
  assert (bucket_start (platform := x86_64) 2 2 = 512) as E2 by (by vm_compute).
  intros (k & Hk & Hin). unfold in_bucket in Hin.
  destruct k as [|[|k]]; [| |lia]; rewrite ?E1, ?E2 in Hin; lia.
Qed.

(** [pow(2, 9.0)] converts to 512 on both platforms. *)
Lemma last_cap_512 :
  to_size_t (platform := x86_64) (pow2 (Platform := x86_64) (F64.of_Z 9)) = 2 ^ 9 /\
  to_size_t (platform := aarch64) (pow2 (Platform := aarch64) (F64.of_Z 9)) = 2 ^ 9.
Proof. split; by vm_compute. Qed.

Lemma bucket_ranges_partition_witness :
  (2 <= length (m_colors (with_fft loud (running 2 false true))))%nat /\
  applyFft (platform := x86_64) all_leds (with_fft loud (running 2 false true))
    = Some ((applied all_leds (with_fft loud (running 2 false true))).1,
            (applied all_leds (with_fft loud (running 2 false true))).2) /\
  Z.of_nat (length (m_fft (with_fft loud (running 2 false true)))) <= fftSize /\
  to_size_t (platform := x86_64) (pow2 (Platform := x86_64) (F64.of_Z 9)) = 2 ^ 9 /\
  bucket_ranges (platform := x86_64) 2 2 = [(0, 1); (1, 512)] /\
  2 ^ 9 <= bucket_start (platform := x86_64) 2 2.
Proof.
  assert (H1 : (2 <= length (m_colors (with_fft loud (running 2 false true))))%nat)
    by (vm_compute; lia).
  assert (H2 : applyFft (platform := x86_64) all_leds (with_fft loud (running 2 false true))
    = Some ((applied all_leds (with_fft loud (running 2 false true))).1,
            (applied all_leds (with_fft loud (running 2 false true))).2))
    by (vm_compute; reflexivity).
  assert (H3 : Z.of_nat (length (m_fft (with_fft loud (running 2 false true)))) <= fftSize)
    by (vm_compute; discriminate).
  assert (H4 : to_size_t (platform := x86_64) (pow2 (Platform := x86_64) (F64.of_Z 9)) = 2 ^ 9)
    by (vm_compute; reflexivity).
  split; [exact H1|]. split; [exact H2|]. split; [exact H3|]. split; [exact H4|].
  split; [vm_compute; reflexivity|].
  exact (proj2 (proj2 (proj1 (proj2 (proj2 (proj2 (proj2 (proj2 (proj2
    (bucket_ranges_partition (platform := x86_64) all_leds _ _ _ H1 H2))))))) H3)) H4).
Defined.

(** C5 at one channel. The exponent is [0 * 9.0 / 0], a NaN, whatever the
    platform; the range of the channel is then what the conversion of a
    NaN to [size_t] makes of it: bin 1 alone where the conversion yields 0
    (AArch64), bins 1 to [fftSize - 1] where it yields [2^63] (x86-64). *)
Theorem single_channel_range :
  bucket_exponent 1 0 = S754_nan /\
  bucket_ranges (platform := aarch64) 1 1 = [(0, 1)] /\
  bucket_ranges (platform := x86_64) 1 1 = [(0, fftSize - 1)].
Proof. split_and!; by vm_compute. Qed.

(** For 2 to 16 channels, the boundary of every channel before the
    adjustment of line 195 is the spec's [min(F-1, floor(2^(i*9/(N-1))))]. *)
Lemma bucket_cap_floor_pow2 : forallb caps_agree (seqZ 2 15) = true.
Proof. by vm_compute. Qed.

(** ** The peak tracker *)

Lemma renormalize_divisor_guarded_witness :
  0 <= 50 /\ ((50 <? 100 - 5) = true -> 6 <= 100) /\ renormalize 50 100 = Some 500.
Proof.
  assert (H : 0 <= 50) by lia.
  split; [exact H|].
  exact (conj (proj1 (renormalize_divisor_guarded (platform := x86_64) 50 100 H))
              (proj1 (proj2 (renormalize_divisor_guarded (platform := x86_64) 50 100 H)))).
Defined.

Lemma renormalize_range_witness :
  0 <= 50 <= specHeight /\ renormalize 50 99 = Some 505 /\
  0 <= 505 <= specHeight /\ 0 <= 50 * specHeight <= 1000000.
Proof.
  assert (H1 : 0 <= 50 <= specHeight) by (unfold specHeight; lia).
  assert (H2 : renormalize 50 99 = Some 505) by reflexivity.
  split; [exact H1|]. split; [exact H2|].
  exact (renormalize_range 50 99 505 H1 H2).
Defined.

Lemma applyFft_completes_witness :
  sizes_agree (running 2 false true) /\
  bucket_start (platform := x86_64) (Z.of_nat (length (m_colors (running 2 false true))))
    (length (m_colors (running 2 false true)))
    < Z.of_nat (length (m_fft (running 2 false true))) /\
  exists changed s', applyFft (platform := x86_64) all_leds (running 2 false true)
                     = Some (changed, s').
Proof.
  assert (H1 : sizes_agree (running 2 false true)) by reflexivity.
  assert (H2 : bucket_start (platform := x86_64)
                 (Z.of_nat (length (m_colors (running 2 false true))))
                 (length (m_colors (running 2 false true)))
               < Z.of_nat (length (m_fft (running 2 false true))))
    by (vm_compute; reflexivity).
  split; [exact H1|]. split; [exact H2|].
  exact (applyFft_completes (platform := x86_64) all_leds _ H1 H2).
Defined.

Lemma peaks_stay_in_range_witness :
  peaks_ok (after_ticks [loud; loud; loud; quiet] (running 2 false true)) /\
  updateColors (platform := x86_64) quiet all_leds
    (after_ticks [loud; loud; loud; quiet] (running 2 false true))
    = Some (updated quiet all_leds
              (after_ticks [loud; loud; loud; quiet] (running 2 false true))) /\
  peaks_ok (updated quiet all_leds
              (after_ticks [loud; loud; loud; quiet] (running 2 false true))).1.
Proof.
  assert (H1 : peaks_ok (after_ticks [loud; loud; loud; quiet] (running 2 false true))).
  { unfold peaks_ok. vm_compute. repeat constructor; discriminate. }
  assert (H2 : updateColors (platform := x86_64) quiet all_leds
    (after_ticks [loud; loud; loud; quiet] (running 2 false true))
    = Some ((updated quiet all_leds
              (after_ticks [loud; loud; loud; quiet] (running 2 false true))).1,
            (updated quiet all_leds
              (after_ticks [loud; loud; loud; quiet] (running 2 false true))).2))
    by (vm_compute; reflexivity).
  split; [exact H1|]. split; [vm_compute; reflexivity|].
  exact (proj2 (proj2 (peaks_stay_in_range (platform := x86_64))) _ _ _ _ _ H1 H2).
Defined.

(** ** Change gating *)

(** After three loud frames the engine is fed the same quiet spectrum
    twice, with send-only-on-change on. The first call emits because the
    colours changed; the second is on frame 5, the peaks drop from 99 to
    98, the renormalised values rise, and it emits again. *)
Lemma same_spectrum_emits_twice :
  m_isSendDataOnlyIfColorsChanged (after_ticks [loud; loud; loud] (running 2 false true))
    = true /\
  snd <$> ticks [quiet; quiet] (after_ticks [loud; loud; loud] (running 2 false true))
    = Some [[updateLedsColors [4286611584; 4286611584]];
            [updateLedsColors [4286743170; 4286743170]]].
Proof. split; by vm_compute. Qed.

(** In Liquid mode the colour the generator has moved to between two
    calls is a change of its own: off a decrement frame, the same quiet
    spectrum emits on both calls once the generator went from (200, 30, 90)
    to (30, 200, 90). *)
Lemma moved_colour_emits_twice :
  m_isSendDataOnlyIfColorsChanged (after_ticks [loud; loud] liquid_engine) = true /\
  Z.rem (m_frames (after_ticks [loud; loud] liquid_engine) + 2) 5 = 4 /\
  (updated quiet all_leds (after_ticks [loud; loud] liquid_engine)).2
    = [updateLedsColors [4284813101; 4284813101]] /\
  (updated quiet all_leds
     (advanced (mkQColor 30 200 90)
        (updated quiet all_leds (after_ticks [loud; loud] liquid_engine)).1)).2
    = [updateLedsColors [4279199021; 4279199021]].
Proof. split_and!; by vm_compute. Qed.

Lemma change_gating_witness :
  m_isSendDataOnlyIfColorsChanged (after_ticks [loud; loud] liquid_engine) = true /\
  Z.rem (m_frames (after_ticks [loud; loud] liquid_engine) + 2) 5 <> 0 /\
  m_isLiquidMode (after_ticks [loud; loud] liquid_engine) = true /\
  Generator.current
    (Generator.advance (mkQColor 200 30 90)
       (m_generator (updated quiet all_leds (after_ticks [loud; loud] liquid_engine)).1))
    = Generator.current (m_generator (after_ticks [loud; loud] liquid_engine)) /\
  updateColors (platform := x86_64) quiet all_leds (after_ticks [loud; loud] liquid_engine)
    = Some ((updated quiet all_leds (after_ticks [loud; loud] liquid_engine)).1,
            [updateLedsColors [4284813101; 4284813101]]) /\
  exists s2 signals2,
    updateColors (platform := x86_64) quiet all_leds
      (advanced (mkQColor 200 30 90)
         (updated quiet all_leds (after_ticks [loud; loud] liquid_engine)).1)
      = Some (s2, signals2) /\
    signals2 = [] /\
    (length ([updateLedsColors [4284813101%Z; 4284813101%Z]] ++ signals2) <= 1)%nat.
Proof.
  assert (H1 : m_isSendDataOnlyIfColorsChanged (after_ticks [loud; loud] liquid_engine)
               = true)
    by (vm_compute; reflexivity).
  assert (H2 : Z.rem (m_frames (after_ticks [loud; loud] liquid_engine) + 2) 5 <> 0)
    by (vm_compute; discriminate).
  assert (H3 : Generator.current
    (Generator.advance (mkQColor 200 30 90)
       (m_generator (updated quiet all_leds (after_ticks [loud; loud] liquid_engine)).1))
    = Generator.current (m_generator (after_ticks [loud; loud] liquid_engine)))
    by (vm_compute; reflexivity).
  assert (H4 : updateColors (platform := x86_64) quiet all_leds
    (after_ticks [loud; loud] liquid_engine)
    = Some ((updated quiet all_leds (after_ticks [loud; loud] liquid_engine)).1,
            [updateLedsColors [4284813101; 4284813101]]))
    by (vm_compute; reflexivity).
  split; [exact H1|]. split; [exact H2|]. split; [vm_compute; reflexivity|].
  split; [exact H3|]. split; [exact H4|].
  exact (proj2 (proj1 (change_gating (platform := x86_64)) _ _ _ _ _ _
                  H1 H2 (fun _ => H3) H4)).
Defined.

Lemma disabled_channel_not_compared_witness :
  m_isSendDataOnlyIfColorsChanged (after_ticks [loud; loud] (running 2 false true)) = true /\
  m_colors (after_ticks [loud; loud] (running 2 false true)) = [4279834905; 4279834905] /\
  updateColors (platform := x86_64) loud without_first
    (after_ticks [loud; loud] (running 2 false true))
    = Some ((updated loud without_first (after_ticks [loud; loud] (running 2 false true))).1,
            []) /\
  m_colors (updated loud without_first (after_ticks [loud; loud] (running 2 false true))).1
    !! 0%nat = Some 0.
Proof.
  assert (H1 : m_isSendDataOnlyIfColorsChanged
                 (after_ticks [loud; loud] (running 2 false true)) = true)
    by (vm_compute; reflexivity).
  assert (H2 : updateColors (platform := x86_64) loud without_first
    (after_ticks [loud; loud] (running 2 false true))
    = Some ((updated loud without_first (after_ticks [loud; loud] (running 2 false true))).1,
            []))
    by (vm_compute; reflexivity).
  split; [exact H1|]. split; [vm_compute; reflexivity|]. split; [exact H2|].
  refine (proj1 (disabled_channel_not_compared (platform := x86_64) _ _ _ _ _ H1 H2)
            0%nat _ _).
  - vm_compute. lia.
  - reflexivity.
Defined.

(** ** Calls without channels *)

(** With no channels and send-only-on-change off, [updateColors] emits
    the empty colour sequence and counts the frame. *)
Lemma updateColors_without_channels_acts :
  m_colors (running 0 false false) = [] /\
  updateColors (platform := x86_64) silence all_leds (running 0 false false)
    = Some (with_fft silence (with_frames 1 (running 0 false false)),
            [updateLedsColors []]) /\
  m_frames (with_fft silence (with_frames 1 (running 0 false false)))
    <> m_frames (running 0 false false).
Proof. split_and!; by vm_compute. Qed.

Lemma updateColors_without_channels_witness :
  - 3 <= 0 /\
  m_colors (initColors (- 3) (running 2 false true)) = [] /\
  updateColors (platform := x86_64) loud all_leds (initColors (- 3) (running 2 false true))
    = Some (with_fft loud (with_frames 1 (initColors (- 3) (running 2 false true))), []).
Proof.
  assert (H1 : - 3 <= 0) by lia.
  assert (H2 : m_colors (initColors (- 3) (running 2 false true)) = [])
    by exact (proj1 (updateColors_without_channels (platform := x86_64)) _ _ H1).
  split; [exact H1|]. split; [exact H2|].
  exact (proj2 (updateColors_without_channels (platform := x86_64)) loud all_leds _ H2).
Defined.

(** ** Mode switches and reset *)

(** A Liquid-mode engine that has shown silence holds opaque black in
    every channel. Switching it to a gradient that starts at black, still
    in silence and with send-only-on-change on, recomputes the same
    colours and emits nothing. *)
Lemma gradient_switch_without_emission :
  m_isEnabled (after_ticks [silence] liquid_engine) = true /\
  m_isLiquidMode (after_ticks [silence] liquid_engine) = true /\
  gen_running (m_generator (after_ticks [silence] liquid_engine)) = true /\
  m_colors (after_ticks [silence] liquid_engine) = [4278190080; 4278190080] /\
  snd <$> setLiquidMode (platform := x86_64) silence all_leds false
            (after_ticks [silence] liquid_engine) = Some [].
Proof. split_and!; by vm_compute. Qed.

Lemma setLiquidMode_gradient_recomputes_witness :
  m_isEnabled (after_ticks [loud] liquid_engine) = true /\
  setLiquidMode (platform := x86_64) loud all_leds false (after_ticks [loud] liquid_engine)
    = Some ((switched false loud all_leds (after_ticks [loud] liquid_engine)).1,
            [updateLedsColors [4279834905; 4279834905]]) /\
  m_isLiquidMode (switched false loud all_leds (after_ticks [loud] liquid_engine)).1 = false /\
  gen_running (m_generator (switched false loud all_leds (after_ticks [loud] liquid_engine)).1)
    = false.
Proof.
  assert (H1 : m_isEnabled (after_ticks [loud] liquid_engine) = true)
    by (vm_compute; reflexivity).
  assert (H2 : setLiquidMode (platform := x86_64) loud all_leds false
     (after_ticks [loud] liquid_engine)
    = Some ((switched false loud all_leds (after_ticks [loud] liquid_engine)).1,
            [updateLedsColors [4279834905; 4279834905]]))
    by (vm_compute; reflexivity).
  split; [exact H1|]. split; [exact H2|].
  exact (conj
    (proj1 (setLiquidMode_gradient_recomputes (platform := x86_64) _ _ _ _ _ H1 H2))
    (proj1 (proj2 (setLiquidMode_gradient_recomputes (platform := x86_64) _ _ _ _ _ H1 H2)))).
Defined.

Lemma reset_keeps_channel_count_witness :
  sizes_agree (after_ticks [loud; quiet] liquid_engine) /\
  m_colors (after_ticks [loud; quiet] liquid_engine) = [4284813101; 4284813101] /\
  length (m_colors (reset (after_ticks [loud; quiet] liquid_engine))) = 2%nat /\
  length (m_peaks (reset (after_ticks [loud; quiet] liquid_engine))) = 2%nat /\
  Forall (fun c => c = 0) (m_colors (reset (after_ticks [loud; quiet] liquid_engine))) /\
  Forall (fun p => p = 0) (m_peaks (reset (after_ticks [loud; quiet] liquid_engine))) /\
  m_frames (reset (after_ticks [loud; quiet] liquid_engine)) = 2.
Proof.
  assert (H1 : sizes_agree (after_ticks [loud; quiet] liquid_engine))
    by (vm_compute; reflexivity).
  pose proof (reset_keeps_channel_count _ H1)
    as (Hc & Hp & Hzc & Hzp & _ & _ & _ & _ & _ & _ & _ & _ & Hf & _).
  split; [exact H1|]. split; [vm_compute; reflexivity|].
  split; [etrans; [exact Hc | vm_compute; reflexivity]|].
  split; [etrans; [exact Hp | vm_compute; reflexivity]|].
  split; [exact Hzc|]. split; [exact Hzp|].
  etrans; [exact Hf | vm_compute; reflexivity].
Defined.

(** ** The device list *)

(** When [init()] fails, nothing is emitted: no empty device list reaches
    the caller. *)
Lemma failed_init_emits_nothing :
  m_isInited uninitialised = false /\
  (init (Backend := failing_backend) uninitialised).1 = false /\
  requestDeviceList (backend := failing_backend) uninitialised
    = (with_isEnabled false uninitialised, []) /\
  (requestDeviceList (backend := failing_backend) uninitialised).2 <> [deviceList [] (-1)].
Proof. split_and!; by vm_compute. Qed.

Lemma requestDeviceList_outcomes_witness :
  m_isInited uninitialised = false /\
  (init (Backend := working_backend) uninitialised).1 = true /\
  (requestDeviceList (backend := working_backend) uninitialised).2
    = [deviceList two_devices 1] /\
  (init (Backend := failing_backend) uninitialised).1 = false /\
  requestDeviceList (backend := failing_backend) uninitialised
    = (with_isEnabled false uninitialised, []).
Proof.
  assert (H1 : m_isInited uninitialised = false) by reflexivity.
  assert (H2 : (init (Backend := working_backend) uninitialised).1 = true) by reflexivity.
  assert (H3 : (init (Backend := failing_backend) uninitialised).1 = false) by reflexivity.
  split; [exact H1|]. split; [exact H2|].
  split.
  { exact (f_equal snd
      (proj1 (proj2 (requestDeviceList_outcomes (backend := working_backend) uninitialised))
         H1 H2)). }
  split; [exact H3|].
  exact (proj1 (requestDeviceList_outcomes (backend := failing_backend) uninitialised) H1 H3).
Defined.

(** ** More sample runs *)

Lemma updateColors_changes_only_witness :
  updateColors (platform := x86_64) quiet all_leds warmed
    = Some ((updated quiet all_leds warmed).1,
            [updateLedsColors [4286743170; 4286743170]]) /\
  m_frames (updated quiet all_leds warmed).1 = m_frames warmed + 1 /\
  m_fft (updated quiet all_leds warmed).1 = quiet /\
  length (m_colors (updated quiet all_leds warmed).1) = length (m_colors warmed).
Proof.
  assert (H1 : updateColors (platform := x86_64) quiet all_leds warmed
               = Some ((updated quiet all_leds warmed).1,
                       [updateLedsColors [4286743170; 4286743170]]))
    by (vm_compute; reflexivity).
  split; [exact H1|].
  pose proof (updateColors_changes_only (platform := x86_64) _ _ _ _ _ H1)
    as (Hf & Hs & Hl & _).
  exact (conj Hf (conj Hs Hl)).
Defined.

Lemma peak_update_witness :
  updateColors (platform := x86_64) quiet all_leds warmed
    = Some ((updated quiet all_leds warmed).1,
            [updateLedsColors [4286743170; 4286743170]]) /\
  (0 < length (m_colors warmed))%nat /\
  exists raw p p',
    channel_raw (platform := x86_64)
      (with_fft quiet (with_frames (m_frames warmed + 1) warmed)) 0 = Some raw /\
    m_peaks warmed !! 0%nat = Some p /\
    m_peaks (updated quiet all_leds warmed).1 !! 0%nat = Some p' /\
    p' = Z.max (scale_val (platform := x86_64) raw)
           (Z.max 0 (p - decrement (m_frames warmed + 1))) /\
    scale_val (platform := x86_64) raw <= p' /\
    (0 <= p -> p - 1 <= p' <= Z.max (scale_val (platform := x86_64) raw) p).
Proof.
  assert (H1 : updateColors (platform := x86_64) quiet all_leds warmed
               = Some ((updated quiet all_leds warmed).1,
                       [updateLedsColors [4286743170; 4286743170]]))
    by (vm_compute; reflexivity).
  assert (H2 : (0 < length (m_colors warmed))%nat) by (vm_compute; lia).
  split; [exact H1|]. split; [exact H2|].
  exact (peak_update (platform := x86_64) _ _ _ _ _ 0%nat H1 H2).
Defined.

Lemma renormalize_raises_witness :
  0 <= 50 /\ 99 <= specHeight /\ renormalize 50 99 = Some 505 /\
  50 <= 505 /\ (99 - 5 <= 50 -> 505 = 50).
Proof.
  assert (H1 : 0 <= 50) by lia.
  assert (H2 : 99 <= specHeight) by (unfold specHeight; lia).
  assert (H3 : renormalize 50 99 = Some 505) by reflexivity.
  split; [exact H1|]. split; [exact H2|]. split; [exact H3|].
  exact (renormalize_raises 50 99 505 H1 H2 H3).
Defined.

Lemma rising_update_witness :
  updateColors (platform := x86_64) loud all_leds (running 2 false true)
    = Some ((updated loud all_leds (running 2 false true)).1,
            [updateLedsColors [4279834905; 4279834905]]) /\
  channel_raw (platform := x86_64)
    (with_fft loud (with_frames (m_frames (running 2 false true) + 1) (running 2 false true)))
    0 = Some loud_bin /\
  m_peaks (running 2 false true) !! 0%nat = Some 0 /\
  (0 < length (m_colors (running 2 false true)))%nat /\
  0 <= scale_val (platform := x86_64) loud_bin /\
  m_peaks (updated loud all_leds (running 2 false true)).1 !! 0%nat
    = Some (scale_val (platform := x86_64) loud_bin) /\
  m_colors (updated loud all_leds (running 2 false true)).1 !! 0%nat
    = Some (channel_rgb (platform := x86_64) (running 2 false true)
              (scale_val (platform := x86_64) loud_bin)).
Proof.
  assert (H1 : updateColors (platform := x86_64) loud all_leds (running 2 false true)
               = Some ((updated loud all_leds (running 2 false true)).1,
                       [updateLedsColors [4279834905; 4279834905]]))
    by (vm_compute; reflexivity).
  assert (H2 : channel_raw (platform := x86_64)
                 (with_fft loud (with_frames (m_frames (running 2 false true) + 1)
                                   (running 2 false true))) 0 = Some loud_bin)
    by (vm_compute; reflexivity).
  assert (H3 : m_peaks (running 2 false true) !! 0%nat = Some 0) by reflexivity.
  assert (H4 : (0 < length (m_colors (running 2 false true)))%nat) by (vm_compute; lia).
  assert (H5 : 0 <= scale_val (platform := x86_64) loud_bin) by (vm_compute; discriminate).
  split; [exact H1|]. split; [exact H2|]. split; [exact H3|]. split; [exact H4|].
  split; [exact H5|].
  exact (rising_update (platform := x86_64) _ _ _ _ _ 0%nat _ _ H1 H2 H3 H4 H5).
Defined.

Lemma stored_colors_witness :
  updateColors (platform := x86_64) loud without_first warmed
    = Some ((updated loud without_first warmed).1, [updateLedsColors [0; 4279834905]]) /\
  m_colors (updated loud without_first warmed).1 !! 0%nat = Some 0 /\
  ((without_first 0%nat = false /\ 0 = 0) \/ (without_first 0%nat = true /\ opaque 0)).
Proof.
  assert (H1 : updateColors (platform := x86_64) loud without_first warmed
               = Some ((updated loud without_first warmed).1,
                       [updateLedsColors [0; 4279834905]]))
    by (vm_compute; reflexivity).
  assert (H2 : m_colors (updated loud without_first warmed).1 !! 0%nat = Some 0)
    by (vm_compute; reflexivity).
  split; [exact H1|]. split; [exact H2|].
  exact (stored_colors (platform := x86_64) _ _ _ _ _ 0%nat 0 H1 H2).
Defined.

Lemma zero_colour_forces_emission_witness :
  updateColors (platform := x86_64) silence all_leds (running 2 false true)
    = Some ((updated silence all_leds (running 2 false true)).1,
            (updated silence all_leds (running 2 false true)).2) /\
  m_colors (running 2 false true) !! 1%nat = Some 0 /\ all_leds 1%nat = true /\
  (updated silence all_leds (running 2 false true)).2
    = [updateLedsColors (m_colors (updated silence all_leds (running 2 false true)).1)].
Proof.
  assert (H1 : updateColors (platform := x86_64) silence all_leds (running 2 false true)
               = Some ((updated silence all_leds (running 2 false true)).1,
                       (updated silence all_leds (running 2 false true)).2))
    by (vm_compute; reflexivity).
  assert (H2 : m_colors (running 2 false true) !! 1%nat = Some 0) by reflexivity.
  assert (H3 : all_leds 1%nat = true) by reflexivity.
  split; [exact H1|]. split; [exact H2|]. split; [exact H3|].
  exact (zero_colour_forces_emission (platform := x86_64) _ _ _ _ _ 1%nat H1 H2 H3).
Defined.

Lemma update_after_settingsProfileChanged_witness :
  updateColors (platform := x86_64) loud all_leds (settingsProfileChanged sample_settings warmed)
    = Some ((updated loud all_leds (settingsProfileChanged sample_settings warmed)).1,
            [updateLedsColors [4278190080; 4278190080; 4278190080]]) /\
  length (m_colors (updated loud all_leds (settingsProfileChanged sample_settings warmed)).1)
    = Z.to_nat (getNumberOfLeds sample_settings) /\
  m_peaks (updated loud all_leds (settingsProfileChanged sample_settings warmed)).1
    = [99; 99; 99].
Proof.
  assert (H1 : updateColors (platform := x86_64) loud all_leds
                 (settingsProfileChanged sample_settings warmed)
               = Some ((updated loud all_leds
                          (settingsProfileChanged sample_settings warmed)).1,
                       [updateLedsColors [4278190080; 4278190080; 4278190080]]))
    by (vm_compute; reflexivity).
  split; [exact H1|]. split.
  - exact (proj1 (update_after_settingsProfileChanged (platform := x86_64) _ _ _ _ _ _ H1)).
  - vm_compute. reflexivity.
Defined.

Lemma gradient_endpoints_witness :
  m_isLiquidMode (running 2 false true) = false /\
  valid_color (m_minColor (running 2 false true)) /\
  valid_color (m_maxColor (running 2 false true)) /\
  channel_rgb (platform := x86_64) (running 2 false true) 0 = 4278190080 /\
  channel_rgb (platform := x86_64) (running 2 false true) specHeight = 4294967295.
Proof.
  assert (H1 : m_isLiquidMode (running 2 false true) = false) by reflexivity.
  assert (H2 : valid_color (m_minColor (running 2 false true)))
    by (unfold valid_color; cbn; lia).
  assert (H3 : valid_color (m_maxColor (running 2 false true)))
    by (unfold valid_color; cbn; lia).
  split; [exact H1|]. split; [exact H2|]. split; [exact H3|].
  exact (proj1 (gradient_endpoints (platform := x86_64) (running 2 false true)) H1 H2 H3).
Defined.

Lemma silent_silence : silent (platform := x86_64) 2 silence.
Proof.
  assert (bucket_start (platform := x86_64) (Z.of_nat 2) 2 = 512) as E by (by vm_compute).
  intros b Hb. rewrite E in Hb. exists (S754_zero false). split; [|done].
  apply lookup_replicate_2. unfold fftSize. lia.
Qed.

Lemma silence_decay_witness :
  updates (platform := x86_64) 6 silence all_leds warmed
    = Some (after_updates 6 silence warmed) /\
  silent (platform := x86_64) (length (m_colors warmed)) silence /\
  0 <= m_frames warmed /\
  m_peaks warmed = [99; 99] /\
  m_frames (after_updates 6 silence warmed) = m_frames warmed + 6 /\
  m_peaks (after_updates 6 silence warmed) !! 0%nat = Some 97.
Proof.
  assert (H1 : updates (platform := x86_64) 6 silence all_leds warmed
               = Some (after_updates 6 silence warmed)) by (vm_compute; reflexivity).
  assert (H2 : silent (platform := x86_64) (length (m_colors warmed)) silence)
    by exact silent_silence.
  assert (H3 : 0 <= m_frames warmed) by (vm_compute; discriminate).
  assert (H4 : (0 < length (m_colors warmed))%nat) by (vm_compute; lia).
  assert (H5 : m_peaks warmed !! 0%nat = Some 99) by (vm_compute; reflexivity).
  split; [exact H1|]. split; [exact H2|]. split; [exact H3|].
  split; [vm_compute; reflexivity|].
  pose proof (silence_decay (platform := x86_64) silence all_leds 6 _ _ H1 H2 H3)
    as [Hf Hchan].
  split; [exact Hf|].
  destruct (Hchan 0%nat 99 H4 H5 ltac:(lia)) as [Hp _].
  etrans; [exact Hp|]. vm_compute. reflexivity.
Defined.

Lemma spectrum_overrun_witness :
  (1 <= length (m_colors (running 1024 false true)))%nat /\
  (length (m_fft (running 1024 false true)) <= length (m_colors (running 1024 false true)))%nat /\
  applyFft (platform := x86_64) all_leds (running 1024 false true) = None.
Proof.
  assert (H1 : (1 <= length (m_colors (running 1024 false true)))%nat)
    by (vm_compute; lia).
  assert (H2 : (length (m_fft (running 1024 false true))
                <= length (m_colors (running 1024 false true)))%nat)
    by (vm_compute; lia).
  split; [exact H1|]. split; [exact H2|].
  exact (proj1 (spectrum_overrun (platform := x86_64) all_leds _ H1) H2).
Defined.

Lemma setLiquidMode_keeps_peaks_witness :
  setLiquidMode (platform := x86_64) loud all_leds true warmed
    = Some ((switched true loud all_leds warmed).1, []) /\
  m_isLiquidMode (switched true loud all_leds warmed).1 = true /\
  gen_running (m_generator (switched true loud all_leds warmed).1) = true /\
  m_peaks (switched true loud all_leds warmed).1 = m_peaks warmed.
Proof.
  assert (H1 : setLiquidMode (platform := x86_64) loud all_leds true warmed
               = Some ((switched true loud all_leds warmed).1, []))
    by (vm_compute; reflexivity).
  split; [exact H1|].
  pose proof (setLiquidMode_keeps_peaks (platform := x86_64) _ _ _ _ _ _ H1)
    as (Hm & Hg & _ & _ & Hsame).
  split; [exact Hm|]. split; [etrans; [exact Hg | vm_compute; reflexivity]|].
  exact (proj1 (proj2 (Hsame (or_introl eq_refl)))).
Defined.

Lemma setDevice_keeps_enabled_witness :
  (forall isEnabled s0, m_isEnabled (start (Capture := recording_capture) isEnabled s0)
                        = isEnabled) /\
  (forall isEnabled s0, m_device (start (Capture := recording_capture) isEnabled s0)
                        = m_device s0) /\
  m_isEnabled (setDevice (capture := recording_capture) 3 warmed) = m_isEnabled warmed /\
  m_device (setDevice (capture := recording_capture) 3 warmed) = 3.
Proof.
  assert (H1 : forall isEnabled s0,
             m_isEnabled (start (Capture := recording_capture) isEnabled s0) = isEnabled)
    by (intros; reflexivity).
  assert (H2 : forall isEnabled s0,
             m_device (start (Capture := recording_capture) isEnabled s0) = m_device s0)
    by (intros; reflexivity).
  split; [exact H1|]. split; [exact H2|].
  pose proof (setDevice_keeps_enabled (capture := recording_capture) 3 warmed H1 H2)
    as (He & Hd & _).
  exact (conj He Hd).
Defined.

Lemma update_after_zeroing_witness :
  ((exists numberOfLeds, setNumberOfLeds 3 warmed = setNumberOfLeds numberOfLeds warmed)
   \/ setNumberOfLeds 3 warmed = reset warmed) /\
  updateColors (platform := x86_64) loud all_leds (setNumberOfLeds 3 warmed)
    = Some ((updated loud all_leds (setNumberOfLeds 3 warmed)).1,
            [updateLedsColors [4279834905; 4279834905; 4279834905]]) /\
  m_peaks warmed = [99; 99] /\
  m_peaks (updated loud all_leds (setNumberOfLeds 3 warmed)).1 = [99; 99; 99] /\
  ([updateLedsColors [4279834905; 4279834905; 4279834905]] = [] <->
   m_isSendDataOnlyIfColorsChanged warmed = true /\
   forall i : nat, (i < length (m_colors (setNumberOfLeds 3 warmed)))%nat ->
     all_leds i = false).
Proof.
  assert (H1 : (exists numberOfLeds,
                  setNumberOfLeds 3 warmed = setNumberOfLeds numberOfLeds warmed)
               \/ setNumberOfLeds 3 warmed = reset warmed)
    by (left; exists 3; reflexivity).
  assert (H2 : updateColors (platform := x86_64) loud all_leds (setNumberOfLeds 3 warmed)
               = Some ((updated loud all_leds (setNumberOfLeds 3 warmed)).1,
                       [updateLedsColors [4279834905; 4279834905; 4279834905]]))
    by (vm_compute; reflexivity).
  split; [exact H1|]. split; [exact H2|].
  split; [vm_compute; reflexivity|]. split; [vm_compute; reflexivity|].
  exact (proj2 (update_after_zeroing (platform := x86_64) _ _ _ _ _ _ H1 H2)).
Defined.
